(** * Netflix revenue forecast: the ingestion, reconciliation, forecast and
      insight pipeline of [revenue.py]

    The script reads four sheets of a workbook, renames their columns,
    strips currency formatting, inner-joins the four tables on the year,
    hands the revenue series to a forecasting service and summarises the
    forecast per future year.  The development below embeds the script
    statement by statement: data frames are row lists under a list of column
    labels, Python exceptions are values of [Exception], and the calls that
    leave the script (the forecasting service, the widgets that print the
    insights) are recorded in an event trace. *)

From Stdlib Require Import List ZArith Bool Ascii String Lia Permutation Sorted.
From Stdlib Require Import QArith Qround DecimalString DecimalPos DecimalZ.
Import ListNotations.

Local Open Scope string_scope.
Local Open Scope list_scope.
Local Open Scope Z_scope.

(** ** Exceptions and results *)

(** The exceptions the script can meet.  Each constructor is one raise site
    of pandas, of the builtins or of the forecasting service; all of them are
    caught by the single [except Exception] of the script. *)
Inductive Exception : Type :=
| WorksheetNotFound (sheet : string)
    (* ExcelFile.parse: ValueError, worksheet named ... not found *)
| LengthMismatch (expected new_values : nat)
    (* columns setter: ValueError, length mismatch *)
| CouldNotConvert (text : string)
    (* astype(float): ValueError, could not convert string to float *)
| KeyError (label : string)
    (* column lookup by a label the frame does not have *)
| BadYear
    (* to_datetime(format='%Y'): ValueError, the value does not match the
       format or is out of the bounds of a timestamp *)
| EmptyArg (op : string)
    (* idxmax and idxmin: ValueError, attempt to get argmax of an empty sequence *)
| ServiceError (message : string).
    (* anything raised inside the forecasting service *)

Inductive Result (A : Type) : Type :=
| Ok (value : A)
| Error (e : Exception).
Arguments Ok {A} value.
Arguments Error {A} e.

Definition rbind {A B} (r : Result A) (k : A -> Result B) : Result B :=
  match r with
  | Ok a => k a
  | Error e => Error e
  end.

(** ** The numeric kernel

    Values are binary64 floats in the script.  The pipeline touches them only
    through the operations below, so the float type and these operations are
    an interface; every statement about the pipeline holds for each
    implementation of it. *)
Class Numeric (F : Type) : Type := {
  float_of_string : string -> option F;   (* float(s); None is the ValueError *)
  float_of_int : Z -> F;                  (* float(n) *)
  feqb : F -> F -> bool;                  (* x == y *)
  fltb : F -> F -> bool;                  (* x < y *)
  fmean : list F -> F;                    (* mean of a group of values *)
  fround : F -> F;                        (* round(): to the nearest integer *)
  int_of_float : F -> Z                   (* int(x) *)
}.

(** ** Cells, rows and data frames *)

(** A calendar day: the year and the day of the year, 1 for January 1. *)
Record Date : Type := mkDate {
  year : Z;
  dayofyear : Z
}.

(** The daily calendar of the forecast horizon. *)
Definition is_leap (y : Z) : bool :=
  (y mod 4 =? 0) && (negb (y mod 100 =? 0) || (y mod 400 =? 0)).

Definition days_in_year (y : Z) : Z := if is_leap y then 366 else 365.

Definition next_day (d : Date) : Date :=
  if dayofyear d <? days_in_year (year d)
  then mkDate (year d) (dayofyear d + 1)
  else mkDate (year d + 1) 1.

(** The [n] days that follow [d], as a daily date range gives them. *)
Fixpoint days_after (d : Date) (n : nat) : list Date :=
  match n with
  | O => []
  | S n' => next_day d :: days_after (next_day d) n'
  end.

Definition date_ltb (a b : Date) : bool :=
  (year a <? year b) || ((year a =? year b) && (dayofyear a <? dayofyear b)).

(** The amounts of the insight lines (lines 101, 107 and 108): the format
    [${n:,}] of an integer, its decimal digits in groups of three counted
    from the right, the groups set apart by commas, after the sign if any
    and behind a dollar sign. *)
Definition decimal (n : Z) : string := NilZero.string_of_int (Z.to_int n).

Fixpoint group3 (rev_digits : list ascii) (room : nat) : list ascii :=
  match rev_digits with
  | [] => []
  | d :: rest =>
      match room with
      | O => ","%char :: d :: group3 rest 2
      | S room' => d :: group3 rest room'
      end
  end.

Definition with_commas (digits : string) : string :=
  string_of_list_ascii (rev (group3 (rev (list_ascii_of_string digits)) 3)).

Definition thousands (n : Z) : string :=
  match Z.to_int n with
  | Decimal.Pos d => with_commas (NilZero.string_of_uint d)
  | Decimal.Neg d => String "-"%char (with_commas (NilZero.string_of_uint d))
  end.

Definition dollars (n : Z) : string := String "$"%char (thousands n).

Section Frames.
Context {F : Type} {num : Numeric F}.

Inductive Cell : Type :=
| CInt (n : Z)
| CFloat (x : F)
| CStr (s : string).

Definition Row : Type := list Cell.

Record DataFrame : Type := mkDataFrame {
  columns : list string;
  rows : list Row
}.

Definition cell_eqb (a b : Cell) : bool :=
  match a, b with
  | CInt m, CInt n => m =? n
  | CFloat x, CFloat y => feqb x y
  | CStr s, CStr t => String.eqb s t
  | _, _ => false
  end.

(** A cell that holds an integer of the 64-bit range: the cells of a column
    that pandas keeps with the dtype [int64]. *)
Definition int64_cell (c : Cell) : Prop :=
  match c with
  | CInt n => - 2 ^ 63 <= n < 2 ^ 63
  | _ => False
  end.

(** Position of a label among the column labels. *)
Fixpoint col_index (label : string) (cols : list string) : option nat :=
  match cols with
  | [] => None
  | c :: cols' =>
      if String.eqb c label then Some O
      else option_map S (col_index label cols')
  end.

(** [df[label]]: the cells of one column. *)
Definition getitem (df : DataFrame) (label : string) : Result (list Cell) :=
  match col_index label (columns df) with
  | Some i => Ok (map (fun r => nth i r (CStr "")) (rows df))
  | None => Error (KeyError label)
  end.

Fixpoint set_nth (i : nat) (c : Cell) (r : Row) : Row :=
  match i, r with
  | _, [] => []
  | O, _ :: r' => c :: r'
  | S i', x :: r' => x :: set_nth i' c r'
  end.

Fixpoint set_column (i : nat) (col : list Cell) (rs : list Row) : list Row :=
  match col, rs with
  | c :: col', r :: rs' => set_nth i c r :: set_column i col' rs'
  | _, _ => []
  end.

(** [df[label] = col] for a label the frame already has. *)
Definition setitem (df : DataFrame) (label : string) (col : list Cell)
  : Result DataFrame :=
  match col_index label (columns df) with
  | Some i =>
      if Nat.eqb (List.length col) (List.length (rows df))
      then Ok (mkDataFrame (columns df) (set_column i col (rows df)))
      else Error (LengthMismatch (List.length (rows df)) (List.length col))
  | None => Error (KeyError label)
  end.

(** A frame is rectangular: every row has one cell per column. *)
Definition rectangular (df : DataFrame) : Prop :=
  Forall (fun r => List.length r = List.length (columns df)) (rows df).

(** ** Sheet Loader and Schema Mapper (lines 27-39) *)

(** The workbook: sheets by name, as parsed into frames. *)
Definition ExcelFile : Type := list (string * DataFrame).

Fixpoint parse (xls : ExcelFile) (sheet : string) : Result DataFrame :=
  match xls with
  | [] => Error (WorksheetNotFound sheet)
  | (name, df) :: xls' =>
      if String.eqb name sheet then Ok df else parse xls' sheet
  end.

(** [df.columns = labels]: the labels are replaced as a whole, and the new
    list must have exactly as many labels as the frame has columns. *)
Definition set_columns (df : DataFrame) (labels : list string)
  : Result DataFrame :=
  if Nat.eqb (List.length (columns df)) (List.length labels)
  then Ok (mkDataFrame labels (rows df))
  else Error (LengthMismatch (List.length (columns df)) (List.length labels)).

Definition revenue_sheet := "Netflix annual revenue 2011 to ".
Definition subs_sheet := "Netflix annual subscribers 2011".
Definition content_sheet := "Netflix annual content spend ($".
Definition income_sheet := "Netflix annual net incomeloss (".

Definition year_label := "Year".
Definition revenue_label := "Revenue ($)".
Definition subs_label := "Subscribers".
Definition content_label := "Content Spend ($)".
Definition income_label := "Net Income ($)".

Record Tables : Type := mkTables {
  revenue_df : DataFrame;
  subs_df : DataFrame;
  content_df : DataFrame;
  income_df : DataFrame
}.

(** Lines 30-39: the four sheets are parsed first, then renamed in turn. *)
Definition load_sheets (xls : ExcelFile) : Result Tables :=
  rbind (parse xls revenue_sheet) (fun revenue =>
  rbind (parse xls subs_sheet) (fun subs =>
  rbind (parse xls content_sheet) (fun content =>
  rbind (parse xls income_sheet) (fun income =>
  rbind (set_columns revenue [year_label; revenue_label]) (fun revenue =>
  rbind (set_columns subs [year_label; subs_label]) (fun subs =>
  rbind (set_columns content [year_label; content_label]) (fun content =>
  rbind (set_columns income [year_label; income_label]) (fun income =>
  Ok (mkTables revenue subs content income))))))))).

(** ** Currency Normalizer (lines 42-48) *)

(** The character class [[\$,]] of the pattern. *)
Definition currency_char (c : ascii) : bool :=
  Ascii.eqb c "$"%char || Ascii.eqb c ","%char.

(** [re.sub('[\$,]', '', s)]: every match of the class is replaced by the empty
    string, the other characters are kept in place. *)
Fixpoint strip_currency (s : string) : string :=
  match s with
  | EmptyString => EmptyString
  | String c s' =>
      if currency_char c then strip_currency s'
      else String c (strip_currency s')
  end.

(** [replace(..., regex=True)] rewrites the string cells only. *)
Definition replace_cell (c : Cell) : Cell :=
  match c with
  | CStr s => CStr (strip_currency s)
  | _ => c
  end.

(** One cell of [astype(float)]. *)
Definition cell_to_float (c : Cell) : Result F :=
  match c with
  | CInt n => Ok (float_of_int n)
  | CFloat x => Ok x
  | CStr s =>
      match float_of_string s with
      | Some x => Ok x
      | None => Error (CouldNotConvert s)
      end
  end.

(** [astype(float)] converts the cells in order and raises at the first one
    that does not convert; nothing of the column is returned then. *)
Fixpoint astype_float (col : list Cell) : Result (list Cell) :=
  match col with
  | [] => Ok []
  | c :: col' =>
      rbind (cell_to_float c) (fun x =>
      rbind (astype_float col') (fun rest =>
      Ok (CFloat x :: rest)))
  end.

(** Every cell of [col] converts, to the floats [xs] in order. *)
Definition converts (col : list Cell) (xs : list F) : Prop :=
  Forall2 (fun c x => cell_to_float c = Ok x) col xs.

(** The float a cell is cleaned to, kind by kind: an integer becomes
    [float(n)], a float stays, and a string becomes what [float] reads in it
    once [$] and [,] are removed. *)
Definition cleaned_value (c : Cell) (x : F) : Prop :=
  match c with
  | CInt n => x = float_of_int n
  | CFloat y => x = y
  | CStr s => float_of_string (strip_currency s) = Some x
  end.

Definition clean_currency (col : list Cell) : Result (list Cell) :=
  astype_float (map replace_cell col).

(** [df[label] = clean_currency(df[label])] *)
Definition clean_column (df : DataFrame) (label : string) : Result DataFrame :=
  rbind (getitem df label) (fun col =>
  rbind (clean_currency col) (fun cleaned =>
  setitem df label cleaned)).

Definition clean_tables (t : Tables) : Result Tables :=
  rbind (clean_column (revenue_df t) revenue_label) (fun revenue =>
  rbind (clean_column (subs_df t) subs_label) (fun subs =>
  rbind (clean_column (content_df t) content_label) (fun content =>
  rbind (clean_column (income_df t) income_label) (fun income =>
  Ok (mkTables revenue subs content income))))).

(** ** Reconciler (lines 51-53) *)

Fixpoint drop_nth {A} (i : nat) (l : list A) : list A :=
  match i, l with
  | _, [] => []
  | O, _ :: l' => l'
  | S i', x :: l' => x :: drop_nth i' l'
  end.

Definition mem_label (label : string) (cols : list string) : bool :=
  existsb (String.eqb label) cols.

(** Labels of the joined frame: the left labels, then the right labels
    without the key; a label other than the key that both sides carry gets
    the suffix [_x] on the left and [_y] on the right. *)
Definition merge_columns (on : string) (lcols rcols : list string)
  : list string :=
  map (fun c =>
         if negb (String.eqb c on) && mem_label c rcols then String.append c "_x" else c)
      lcols
  ++
  map (fun c => if mem_label c lcols then String.append c "_y" else c)
      (filter (fun c => negb (String.eqb c on)) rcols).

(** Rows of an inner join with the default [sort=False]: the left rows in
    their order, each paired with every right row of the same key, in the
    order of the right rows. *)
Definition merge_rows (i j : nat) (lrows rrows : list Row) : list Row :=
  flat_map
    (fun a =>
       map (fun b => a ++ drop_nth j b)
           (filter (fun b => cell_eqb (nth i a (CStr "")) (nth j b (CStr "")))
                   rrows))
    lrows.

(** [left.merge(right, on=label)] with the defaults [how='inner'],
    [sort=False], [validate=None]: no check of key uniqueness is made.
    The model follows pandas on frames with distinct labels whose key
    columns hold integers, which is what the script merges: the year columns
    of the four sheets.  Outside of them pandas does more than is modelled
    here: it matches an integer key with the float of the same value,
    refuses to join an integer key column with a text one, and refuses a key
    label that a frame carries twice. *)
Definition merge (left right : DataFrame) (on : string) : Result DataFrame :=
  match col_index on (columns left), col_index on (columns right) with
  | Some i, Some j =>
      Ok (mkDataFrame (merge_columns on (columns left) (columns right))
                      (merge_rows i j (rows left) (rows right)))
  | _, _ => Error (KeyError on)
  end.

Definition reconcile (t : Tables) : Result DataFrame :=
  rbind (merge (revenue_df t) (subs_df t) year_label) (fun df =>
  rbind (merge df (content_df t) year_label) (fun df =>
  merge df (income_df t) year_label)).

(** *** Cleaned metric tables, as the reconciler receives them

    A cleaned metric table has the columns [Year] and one metric, an integer
    year and a float value in every row.  The tables are given by their
    (year, value) pairs in row order. *)
Definition metric_row (kv : Z * F) : Row := [CInt (fst kv); CFloat (snd kv)].

Definition metric_table (label : string) (data : list (Z * F)) : DataFrame :=
  mkDataFrame [year_label; label] (map metric_row data).

Definition cleaned_tables (revenue subs content income : list (Z * F))
  : Tables :=
  mkTables (metric_table revenue_label revenue)
           (metric_table subs_label subs)
           (metric_table content_label content)
           (metric_table income_label income).

(** A row of a joined frame: the year, then the metric values. *)
Definition wide_row (r : Z * list F) : Row :=
  CInt (fst r) :: map CFloat (snd r).

(** The rows [merge_rows] builds, read on (year, values) pairs. *)
Definition join (lrows : list (Z * list F)) (rrows : list (Z * F))
  : list (Z * list F) :=
  flat_map
    (fun l =>
       map (fun r => (fst l, snd l ++ [snd r]))
           (filter (fun r => fst l =? fst r) rrows))
    lrows.

Definition single (data : list (Z * F)) : list (Z * list F) :=
  map (fun kv => (fst kv, [snd kv])) data.

Definition joined (revenue subs content income : list (Z * F))
  : list (Z * list F) :=
  join (join (join (single revenue) subs) content) income.

Definition reconciled_columns : list string :=
  [year_label; revenue_label; subs_label; content_label; income_label].

(** Number of rows of a table that carry the year [k]. *)
Definition occurrences {A} (k : Z) (data : list (Z * A)) : nat :=
  List.length (filter (fun kv => k =? fst kv) data).

Definition has_year {A} (k : Z) (data : list (Z * A)) : bool :=
  existsb (fun kv => k =? fst kv) data.

(** ** Time-Series Builder (lines 64-67) *)

(** [pd.to_datetime(col, format='%Y')] on one cell: an integer is shown as
    text and read as a four-digit year, giving January 1 of that year.  The
    model follows pandas on integer years from 1678 to 2262, the years whose
    January 1 every pandas version represents (the nanosecond timestamps end
    in 2262; later versions go on to 9999).  Outside of that domain the
    model reports [BadYear] where pandas may still return a date: for a
    later integer year, and for a float or a text cell that reads as a year.
    The properties that give a series are stated for integer years from 1678
    to 2262. *)
Definition to_datetime (c : Cell) : Result Date :=
  match c with
  | CInt y =>
      if (1678 <=? y) && (y <=? 2262) then Ok (mkDate y 1) else Error BadYear
  | _ => Error BadYear
  end.

Fixpoint to_datetime_all (col : list Cell) : Result (list Date) :=
  match col with
  | [] => Ok []
  | c :: col' =>
      rbind (to_datetime c) (fun d =>
      rbind (to_datetime_all col') (fun ds =>
      Ok (d :: ds)))
  end.

(** The two-column frame [ds], [y] handed to the forecasting service: one
    point per row of the reconciled frame.  No row count is examined. *)
Definition build_series (df : DataFrame) : Result (list (Date * Cell)) :=
  rbind (getitem df year_label) (fun years =>
  rbind (getitem df revenue_label) (fun revenue =>
  rbind (to_datetime_all years) (fun ds =>
  Ok (combine ds revenue)))).

(** ** The forecasting service and the trace *)

Record ForecastPoint : Type := mkPoint {
  ds : Date;
  yhat : F;
  yhat_lower : F;
  yhat_upper : F
}.

(** The three calls the script makes on the service.  [Model] is the fitted
    model; each call may raise. *)
Class Forecaster (Model : Type) : Type := {
  fit : list (Date * Cell) -> Result Model;
  make_future_dataframe : Model -> Z -> Result (list Date);
  predict : Model -> list Date -> Result (list ForecastPoint)
}.

(** The lines printed under the chart. *)
Inductive Insight : Type :=
| NextYear (y : Z) (amount : Z)
| Highest (amount : Z) (y : Z)
| Lowest (amount : Z) (y : Z).

(** What the run does outside itself, in order. *)
Inductive Event : Type :=
| EvDataframe (df : DataFrame)              (* st.dataframe(df) *)
| EvFit (history : list (Date * Cell))      (* model.fit(prophet_df) *)
| EvMakeFuture (periods : Z)                (* make_future_dataframe(periods, 'D') *)
| EvPredict (future : list Date)            (* model.predict(future) *)
| EvMarkdown (line : Insight)               (* st.markdown(...) of the insights *)
| EvDownload (table : list ForecastPoint)   (* st.download_button(csv) *)
| EvError (e : Exception).                  (* st.error(...) of the handler *)

(** The events that are calls of the forecasting service. *)
Definition service_event (ev : Event) : Prop :=
  match ev with
  | EvFit _ | EvMakeFuture _ | EvPredict _ => True
  | _ => False
  end.

(** A computation of the script: the events so far, and a value or the
    exception that stopped it. *)
Definition Run (A : Type) : Type := (list Event * Result A)%type.

Definition ret {A} (a : A) : Run A := ([], Ok a).

Definition bind {A B} (m : Run A) (k : A -> Run B) : Run B :=
  match m with
  | (log, Ok a) => let (log', r) := k a in (log ++ log', r)
  | (log, Error e) => (log, Error e)
  end.

Definition emit (ev : Event) : Run unit := ([ev], Ok tt).

Definition lift {A} (r : Result A) : Run A := ([], r).

Notation "x <- m ;; k" := (bind m (fun x => k))
  (at level 61, m at next level, right associativity).
Notation "m ;;; k" := (bind m (fun _ => k))
  (at level 61, right associativity).

(** ** Forecast Invoker (lines 70-77) *)

(** A position of a slider with the given ends. *)
Record SliderPos (min_value max_value : Z) : Type := mkSliderPos {
  pos : Z;
  pos_in_range : (min_value <=? pos) && (pos <=? max_value) = true
}.
Arguments pos {min_value max_value} s.

(** [st.slider(label, min_value, max_value, value)]: the position picked in
    the browser, or [value] while the slider is untouched. *)
Definition slider (min_value max_value value : Z)
    (picked : option (SliderPos min_value max_value)) : Z :=
  match picked with
  | Some p => pos p
  | None => value
  end.

Section Service.
Context {Model : Type} {svc : Forecaster Model}.

(** Lines 71-77, from the slider's value on. *)
Definition invoke_forecast (prophet_df : list (Date * Cell))
    (forecast_years : Z) : Run (list ForecastPoint) :=
  let periods := forecast_years * 365 in
  emit (EvFit prophet_df) ;;;
  model <- lift (fit prophet_df) ;;
  emit (EvMakeFuture periods) ;;;
  future <- lift (make_future_dataframe model periods) ;;
  emit (EvPredict future) ;;;
  lift (predict model future).

End Service.

(** ** Insight Extractor (lines 86-108) *)

(** [df['Year'].max()]: the greatest year, nothing for an empty column. *)
Fixpoint column_max (col : list Cell) : option Z :=
  match col with
  | [] => None
  | CInt y :: col' =>
      match column_max col' with
      | Some m => Some (Z.max y m)
      | None => Some y
      end
  | _ :: col' => column_max col'
  end.

(** [forecast_out[forecast_out['Year'] > latest_year]]; against the missing
    maximum of an empty column every comparison is false. *)
Definition future_forecast (latest_year : option Z)
    (forecast_out : list ForecastPoint) : list ForecastPoint :=
  filter (fun p =>
            match latest_year with
            | Some l => l <? year (ds p)
            | None => false
            end)
         forecast_out.

(** One row enters its year's group; the groups stay in ascending order of
    the year and each keeps its values in the order of the rows. *)
Fixpoint group_insert (y : Z) (v : F) (groups : list (Z * list F))
  : list (Z * list F) :=
  match groups with
  | [] => [(y, [v])]
  | (y', vs) :: groups' =>
      if y <? y' then (y, [v]) :: groups
      else if y =? y' then (y', vs ++ [v]) :: groups'
      else (y', vs) :: group_insert y v groups'
  end.

(** [groupby('Year')['yhat']] *)
Definition groupby_year (points : list ForecastPoint) : list (Z * list F) :=
  fold_left (fun groups p => group_insert (year (ds p)) (yhat p) groups)
            points [].

(** [future_forecast.groupby('Year')['yhat'].mean().round()]: a series
    indexed by the year, in ascending order. *)
Definition annual_pred (latest_year : option Z)
    (forecast_out : list ForecastPoint) : list (Z * F) :=
  map (fun g => (fst g, fround (fmean (snd g))))
      (groupby_year (future_forecast latest_year forecast_out)).

(** [annual_pred[y]], and [y in annual_pred] as its being defined. *)
Fixpoint series_get (y : Z) (s : list (Z * F)) : option F :=
  match s with
  | [] => None
  | (y', v) :: s' => if y =? y' then Some v else series_get y s'
  end.

(** The values of one group, and the estimates of the points of one year in
    the order of the forecast. *)
Fixpoint group_get (y : Z) (groups : list (Z * list F)) : option (list F) :=
  match groups with
  | [] => None
  | (y', vs) :: groups' => if y =? y' then Some vs else group_get y groups'
  end.

(** What a group holds once more rows have entered. *)
Definition extend (o : option (list F)) (vs : list F) : option (list F) :=
  match o, vs with
  | Some vs0, _ => Some (vs0 ++ vs)
  | None, [] => None
  | None, _ => Some vs
  end.

Definition year_values (y : Z) (points : list ForecastPoint) : list F :=
  map yhat (filter (fun p => year (ds p) =? y) points).

(** The label of the first entry that no other entry beats. *)
Fixpoint arg_best (beats : F -> F -> bool) (best : Z * F) (s : list (Z * F))
  : Z :=
  match s with
  | [] => fst best
  | (y, v) :: s' =>
      if beats v (snd best) then arg_best beats (y, v) s'
      else arg_best beats best s'
  end.

Definition idxmax (s : list (Z * F)) : Result Z :=
  match s with
  | [] => Error (EmptyArg "argmax")
  | p :: s' => Ok (arg_best (fun v b => fltb b v) p s')
  end.

Definition idxmin (s : list (Z * F)) : Result Z :=
  match s with
  | [] => Error (EmptyArg "argmin")
  | p :: s' => Ok (arg_best (fun v b => fltb v b) p s')
  end.

(** Lines 98-101: the line for the next year, printed only when the series
    has that year. *)
Definition show_next_year (latest_year : option Z) (annual : list (Z * F))
  : Run unit :=
  match latest_year with
  | Some l =>
      match series_get (l + 1) annual with
      | Some v => emit (EvMarkdown (NextYear (l + 1) (int_of_float v)))
      | None => ret tt
      end
  | None => ret tt
  end.

Definition amount_at (y : Z) (annual : list (Z * F)) : Result Z :=
  match series_get y annual with
  | Some v => Ok (int_of_float v)
  | None => Error (KeyError "Year")
  end.

(** Lines 86-108. *)
Definition extract_insights (latest_year : option Z)
    (forecast_out : list ForecastPoint) : Run unit :=
  let annual := annual_pred latest_year forecast_out in
  show_next_year latest_year annual ;;;
  max_year <- lift (idxmax annual) ;;
  min_year <- lift (idxmin annual) ;;
  hi <- lift (amount_at max_year annual) ;;
  emit (EvMarkdown (Highest hi max_year)) ;;;
  lo <- lift (amount_at min_year annual) ;;
  emit (EvMarkdown (Lowest lo min_year)).

(** ** The run (lines 24-122) *)

Section Script.
Context {Model : Type} {svc : Forecaster Model}.

(** Lines 64-119 on the reconciled frame. *)
Definition forecast_and_report (df : DataFrame)
    (picked : option (SliderPos 1 10)) : Run unit :=
  prophet_df <- lift (build_series df) ;;
  let forecast_years := slider 1 10 5 picked in
  forecast <- invoke_forecast prophet_df forecast_years ;;
  years <- lift (getitem df year_label) ;;
  extract_insights (column_max years) forecast ;;;
  emit (EvDownload forecast).

(** The body of the [try]; the statements that only draw (the headings, the
    line chart, the two plots of the service) leave no event. *)
Definition main (xls : ExcelFile) (picked : option (SliderPos 1 10))
  : Run unit :=
  tables <- lift (load_sheets xls) ;;
  tables <- lift (clean_tables tables) ;;
  df <- lift (reconcile tables) ;;
  emit (EvDataframe df) ;;;
  forecast_and_report df picked.

(** The [try] with its handler: an exception ends the run with the error
    box, after whatever was shown before it. *)
Definition app (xls : ExcelFile) (picked : option (SliderPos 1 10))
  : list Event :=
  match main xls picked with
  | (log, Ok _) => log
  | (log, Error e) => log ++ [EvError e]
  end.

End Script.

End Frames.

(** ** An exact instance of the numeric kernel

    Rational numbers, with the operations computed exactly: no rounding to
    binary64 is modelled, so the instance agrees with Python floats on the
    amounts that a float holds exactly, such as the small integers and
    halves of the samples.  The reader of text covers the plain decimal
    literals (a sign, digits, at most one point); [float()] reads more than
    that: exponents, surrounding blanks, underscores between digits, [nan]
    and [inf].  The instance serves the concrete runs below only; the
    general properties are proved for any numeric kernel. *)
Module Exact.

Definition digit_of (c : ascii) : option Z :=
  let n := Z.of_nat (nat_of_ascii c) in
  if (48 <=? n) && (n <=? 57) then Some (n - 48) else None.

(** Digits with at most one point and at least one digit. *)
Fixpoint scan (s : string) (num den : Z) (dot any : bool) : option Q :=
  match s with
  | EmptyString => if any then Some (Qred (num # Z.to_pos den)) else None
  | String c s' =>
      if Ascii.eqb c "."%char
      then (if dot then None else scan s' num den true any)
      else match digit_of c with
           | Some d =>
               scan s' (10 * num + d) (if dot then 10 * den else den) dot true
           | None => None
           end
  end.

Definition q_of_string (s : string) : option Q :=
  match s with
  | String "-"%char s' => option_map (fun q => Qred (Qopp q)) (scan s' 0 1 false false)
  | String "+"%char s' => scan s' 0 1 false false
  | _ => scan s 0 1 false false
  end.

Definition q_mean (l : list Q) : Q :=
  Qred (fold_right Qplus 0%Q l / inject_Z (Z.of_nat (List.length l))).

(** To the nearest integer, a half to the even neighbour. *)
Definition q_round (x : Q) : Q :=
  let f := Qfloor x in
  match Qcompare (x - inject_Z f) (1 # 2) with
  | Lt => inject_Z f
  | Gt => inject_Z (f + 1)
  | Eq => if Z.even f then inject_Z f else inject_Z (f + 1)
  end.

Definition q_trunc (x : Q) : Z := Z.quot (Qnum x) (Zpos (Qden x)).

#[export] Instance numeric : Numeric Q := {
  float_of_string := q_of_string;
  float_of_int := inject_Z;
  feqb := Qeq_bool;
  fltb := fun x y => negb (Qle_bool y x);
  fmean := q_mean;
  fround := q_round;
  int_of_float := q_trunc
}.

End Exact.

(** ** A forecasting service with the documented interface

    It keeps the history it was fitted on, refuses a history of fewer than
    two rows, lays the future frame out as the history dates followed by
    one date per day after the last of them, and predicts the last observed
    value at every date. *)
Module Persistence.
Section Persistence.
Context {F : Type} {num : Numeric F}.

Definition Model : Type := list (Date * @Cell F).

Definition fit (history : list (Date * @Cell F)) : Result Model :=
  if (List.length history <? 2)%nat
  then Error (ServiceError "Dataframe has less than 2 non-NaN rows.")
  else Ok history.

Fixpoint insert_date (d : Date) (l : list Date) : list Date :=
  match l with
  | [] => [d]
  | d' :: l' =>
      if date_ltb d d' then d :: l
      else if date_ltb d' d then d' :: insert_date d l'
      else l
  end.

(** The distinct dates of the history, in ascending order. *)
Definition history_dates (m : Model) : list Date :=
  fold_right insert_date [] (map fst m).

Definition make_future_dataframe (m : Model) (periods : Z)
  : Result (list Date) :=
  match rev (history_dates m) with
  | last_date :: _ =>
      Ok (history_dates m ++ days_after last_date (Z.to_nat periods))
  | [] => Error (ServiceError "no history")
  end.

Definition level (m : Model) : F :=
  match rev m with
  | (_, CFloat x) :: _ => x
  | (_, CInt n) :: _ => float_of_int n
  | _ => float_of_int 0
  end.

Definition predict (m : Model) (future : list Date)
  : Result (list (@ForecastPoint F)) :=
  Ok (map (fun d => mkPoint d (level m) (level m) (level m)) future).

#[export] Instance service : Forecaster Model := {
  fit := fit;
  make_future_dataframe := make_future_dataframe;
  predict := predict
}.

End Persistence.
End Persistence.

(** ** Concrete workbooks *)
Module Samples.
Import Exact.

(** A sheet as the workbook has it: its own header text, an integer year and
    a formatted amount in every row. *)
Definition sheet (header : list string) (data : list (Z * string))
  : @DataFrame Q :=
  mkDataFrame header (map (fun kv => [CInt (fst kv); CStr (snd kv)]) data).

Definition workbook (revenue subs content income : @DataFrame Q)
  : @ExcelFile Q :=
  [ (revenue_sheet, revenue); (subs_sheet, subs);
    (content_sheet, content); (income_sheet, income) ].

Definition subs_2019_2020 : @DataFrame Q :=
  sheet ["Year"; "Subscribers (mm)"] [(2019, "167.1"); (2020, "203.7")].
Definition content_2019_2020 : @DataFrame Q :=
  sheet ["Year"; "Spend"] [(2019, "$13,900"); (2020, "$11,800")].
Definition income_2019_2020 : @DataFrame Q :=
  sheet ["Year"; "Income"] [(2019, "$1,867"); (2020, "$2,761")].

(** Two years of history, the last of them a leap year. *)
Definition workbook_2019_2020 : @ExcelFile Q :=
  workbook (sheet ["Date"; "Revenue"] [(2019, "$20,156"); (2020, "$24,996")])
           subs_2019_2020 content_2019_2020 income_2019_2020.

(** The revenue sheet carries a third column. *)
Definition workbook_three_columns : @ExcelFile Q :=
  workbook (mkDataFrame ["Year"; "Revenue"; "Note"]
              [[CInt 2019; CStr "$20,156"; CStr "audited"];
               [CInt 2020; CStr "$24,996"; CStr "audited"]])
           subs_2019_2020 content_2019_2020 income_2019_2020.

(** Only 2020 is common to the four sheets. *)
Definition workbook_one_common_year : @ExcelFile Q :=
  workbook (sheet ["Year"; "Revenue"] [(2019, "$20,156"); (2020, "$24,996")])
           (sheet ["Year"; "Subscribers"] [(2020, "203.7"); (2021, "221.8")])
           content_2019_2020 income_2019_2020.

(** The slider at its shortest horizon. *)
Definition one_year : SliderPos 1 10 := mkSliderPos 1 10 1 eq_refl.


(** Cleaned tables, as (year, value) rows. *)
Definition revenue_2019_2021 : list (Z * Q) :=
  [(2019, 20156%Q); (2020, 24996%Q); (2021, 29698%Q)].
Definition subs_2019_2020_rows : list (Z * Q) :=
  [(2019, 167%Q); (2020, 204%Q)].
Definition content_2020_2021 : list (Z * Q) :=
  [(2020, 11800%Q); (2021, 17000%Q)].
Definition income_2019_2021 : list (Z * Q) :=
  [(2019, 1867%Q); (2020, 2761%Q); (2021, 5116%Q)].

(** The year 2020 entered twice in the Subscribers table. *)
Definition subs_2020_twice : list (Z * Q) := [(2020, 204%Q); (2020, 195%Q)].

(** Two years, the later one first, and the same rows in ascending order. *)
Definition rows_2021_2020 : list (Z * Q) := [(2021, 29698%Q); (2020, 24996%Q)].
Definition rows_2020_2021 : list (Z * Q) := [(2020, 24996%Q); (2021, 29698%Q)].

(** Reconciled frames. *)
Definition reconciled_2019_2020 : @DataFrame Q :=
  mkDataFrame reconciled_columns
    [[CInt 2019; CFloat 20156%Q; CFloat 167%Q; CFloat 13900%Q; CFloat 1867%Q];
     [CInt 2020; CFloat 24996%Q; CFloat 204%Q; CFloat 11800%Q; CFloat 2761%Q]].

Definition reconciled_2020 : @DataFrame Q :=
  mkDataFrame reconciled_columns
    [[CInt 2020; CFloat 24996%Q; CFloat 204%Q; CFloat 11800%Q; CFloat 2761%Q]].


Definition forecast_2020_2022 : list (@ForecastPoint Q) :=
  [mkPoint (mkDate 2020 366) 25000%Q 24000%Q 26000%Q;
   mkPoint (mkDate 2021 1) 26000%Q 25000%Q 27000%Q;
   mkPoint (mkDate 2021 2) 26003%Q 25000%Q 27000%Q;
   mkPoint (mkDate 2022 1) 30000%Q 29000%Q 31000%Q].

(** A workbook without the subscribers sheet. *)
Definition workbook_without_subs : @ExcelFile Q :=
  [ (revenue_sheet,
     sheet ["Year"; "Revenue"] [(2019, "$20,156"); (2020, "$24,996")]);
    (content_sheet, content_2019_2020); (income_sheet, income_2019_2020) ].

(** The revenue sheet of 2019 and 2020 under the canonical labels. *)
Definition revenue_frame_raw : @DataFrame Q :=
  mkDataFrame [year_label; revenue_label]
    [[CInt 2019; CStr "$20,156"]; [CInt 2020; CStr "$24,996"]].

(** The forecast of four points with the rows of 2021 and 2022 interleaved. *)
Definition forecast_interleaved : list (@ForecastPoint Q) :=
  [mkPoint (mkDate 2020 366) 25000%Q 24000%Q 26000%Q;
   mkPoint (mkDate 2021 1) 26000%Q 25000%Q 27000%Q;
   mkPoint (mkDate 2022 1) 30000%Q 29000%Q 31000%Q;
   mkPoint (mkDate 2021 2) 26003%Q 25000%Q 27000%Q].

(** An annual series whose highest amount occurs twice. *)
Definition annual_with_tie : list (Z * Q) :=
  [(2021, 26002%Q); (2022, 30000%Q); (2023, 30000%Q)].

End Samples.

(** * Properties *)

Section Properties.
Context {F : Type} {num : Numeric F}.

Local Abbreviation Cell := (@Cell F).
Local Abbreviation DataFrame := (@DataFrame F).
Local Abbreviation ForecastPoint := (@ForecastPoint F).

(** ** Sheet Loader *)

Lemma set_columns_ok (df : DataFrame) (labels : list string) :
  List.length (columns df) = List.length labels ->
  set_columns df labels = Ok (mkDataFrame labels (rows df)).
Proof.
  intros H. unfold set_columns. rewrite H, Nat.eqb_refl. reflexivity.
Qed.

Lemma set_columns_error (df : DataFrame) (labels : list string) :
  List.length (columns df) <> List.length labels ->
  set_columns df labels
  = Error (LengthMismatch (List.length (columns df)) (List.length labels)).
Proof.
  intros H. unfold set_columns.
  destruct (Nat.eqb_spec (List.length (columns df)) (List.length labels));
    [contradiction | reflexivity].
Qed.

Lemma set_columns_inv (df df' : DataFrame) (labels : list string) :
  set_columns df labels = Ok df' ->
  List.length (columns df) = List.length labels
  /\ df' = mkDataFrame labels (rows df).
Proof.
  unfold set_columns.
  destruct (Nat.eqb_spec (List.length (columns df)) (List.length labels));
    intros H; inversion H; auto.
Qed.

(** C5 (as amended).  For a workbook that has the four sheets: when each
    sheet has exactly two columns, the loader returns the four frames with
    the canonical labels put on the columns by position, whatever the header
    text was, and with the rows untouched; the loader succeeds in no other
    case; and a sheet whose column count is not two, fewer or more, makes the
    load fail with the length mismatch of the label assignment. *)
Theorem load_sheets_two_columns
    (xls : @ExcelFile F) (revenue subs content income : DataFrame) :
  parse xls revenue_sheet = Ok revenue ->
  parse xls subs_sheet = Ok subs ->
  parse xls content_sheet = Ok content ->
  parse xls income_sheet = Ok income ->
  (List.length (columns revenue) = 2%nat /\ List.length (columns subs) = 2%nat
   /\ List.length (columns content) = 2%nat
   /\ List.length (columns income) = 2%nat ->
   load_sheets xls
   = Ok (mkTables
           (mkDataFrame [year_label; revenue_label] (rows revenue))
           (mkDataFrame [year_label; subs_label] (rows subs))
           (mkDataFrame [year_label; content_label] (rows content))
           (mkDataFrame [year_label; income_label] (rows income))))
  /\ (forall t, load_sheets xls = Ok t ->
        List.length (columns revenue) = 2%nat
        /\ List.length (columns subs) = 2%nat
        /\ List.length (columns content) = 2%nat
        /\ List.length (columns income) = 2%nat)
  /\ (forall df, In df [revenue; subs; content; income] ->
        List.length (columns df) <> 2%nat ->
        exists n, n <> 2%nat
                  /\ load_sheets xls = Error (LengthMismatch n 2)).
Proof.
  intros Hr Hs Hc Hi. unfold load_sheets. rewrite Hr, Hs, Hc, Hi. cbn [rbind].
  split; [| split].
  - intros (H1 & H2 & H3 & H4).
    rewrite !set_columns_ok by assumption. reflexivity.
  - intros t H.
    destruct (set_columns revenue _) as [r'|] eqn:E1; [| discriminate].
    destruct (set_columns subs _) as [s'|] eqn:E2; [| discriminate].
    destruct (set_columns content _) as [c'|] eqn:E3; [| discriminate].
    destruct (set_columns income _) as [i'|] eqn:E4; [| discriminate].
    apply set_columns_inv in E1, E2, E3, E4. cbn in *. tauto.
  - intros df Hin Hne.
    destruct (Nat.eq_dec (List.length (columns revenue)) 2) as [L1 | L1];
      [| exists (List.length (columns revenue)); split; [assumption |];
         rewrite (set_columns_error revenue) by exact L1; reflexivity].
    rewrite (set_columns_ok revenue) by exact L1. cbn [rbind].
    destruct (Nat.eq_dec (List.length (columns subs)) 2) as [L2 | L2];
      [| exists (List.length (columns subs)); split; [assumption |];
         rewrite (set_columns_error subs) by exact L2; reflexivity].
    rewrite (set_columns_ok subs) by exact L2. cbn [rbind].
    destruct (Nat.eq_dec (List.length (columns content)) 2) as [L3 | L3];
      [| exists (List.length (columns content)); split; [assumption |];
         rewrite (set_columns_error content) by exact L3; reflexivity].
    rewrite (set_columns_ok content) by exact L3. cbn [rbind].
    destruct (Nat.eq_dec (List.length (columns income)) 2) as [L4 | L4];
      [| exists (List.length (columns income)); split; [assumption |];
         rewrite (set_columns_error income) by exact L4; reflexivity].
    exfalso. cbn in Hin.
    destruct Hin as [<- | [<- | [<- | [<- | []]]]]; contradiction.
Qed.

(** ** Currency Normalizer *)

Lemma currency_char_spec (c : ascii) :
  currency_char c = true <-> c = "$"%char \/ c = ","%char.
Proof.
  unfold currency_char. rewrite orb_true_iff, !Ascii.eqb_eq. tauto.
Qed.

Lemma strip_currency_chars (s : string) :
  list_ascii_of_string (strip_currency s)
  = filter (fun c => negb (currency_char c)) (list_ascii_of_string s).
Proof.
  induction s as [| c s IH]; cbn; [reflexivity |].
  destruct (currency_char c); cbn; now rewrite IH.
Qed.

Lemma converts_in (col : list Cell) (xs : list F) (c : Cell) :
  converts col xs -> In c col -> exists x, cell_to_float c = Ok x.
Proof.
  induction 1 as [| c0 x col xs Hc _ IH]; intros [].
  - subst. eauto.
  - auto.
Qed.

Lemma astype_float_ok (col : list Cell) (xs : list F) :
  converts col xs -> astype_float col = Ok (map CFloat xs).
Proof.
  induction 1 as [| c x col xs Hc _ IH]; cbn; [reflexivity |].
  now rewrite Hc, IH.
Qed.

Lemma astype_float_inv (col out : list Cell) :
  astype_float col = Ok out ->
  exists xs, out = map CFloat xs /\ converts col xs.
Proof.
  revert out. induction col as [| c col IH]; cbn; intros out H.
  - inversion H. exists []. split; [reflexivity | constructor].
  - destruct (cell_to_float c) as [x|] eqn:Ec; cbn in H; [| discriminate].
    destruct (astype_float col) as [rest|] eqn:Er; cbn in H; [| discriminate].
    inversion H; subst. destruct (IH rest eq_refl) as (xs & -> & Hxs).
    exists (x :: xs). split; [reflexivity | now constructor].
Qed.

(** The conversion stops at the first cell that does not convert. *)
Lemma astype_float_first_error (pre post : list Cell) (c : Cell) (e : Exception) :
  (forall c', In c' pre -> exists x, cell_to_float c' = Ok x) ->
  cell_to_float c = Error e ->
  astype_float (pre ++ c :: post) = Error e.
Proof.
  induction pre as [| p pre IH]; cbn; intros Hpre Hc.
  - now rewrite Hc.
  - destruct (Hpre p (or_introl eq_refl)) as (x & ->). cbn.
    rewrite IH; auto.
Qed.

Lemma astype_float_error_inv (col : list Cell) (e : Exception) :
  astype_float col = Error e ->
  exists pre c post,
    col = pre ++ c :: post
    /\ (forall c', In c' pre -> exists x, cell_to_float c' = Ok x)
    /\ cell_to_float c = Error e.
Proof.
  induction col as [| c col IH]; cbn; intros H; [discriminate |].
  destruct (cell_to_float c) as [x|e'] eqn:Ec; cbn in H.
  - destruct (astype_float col) as [rest|e''] eqn:Er; cbn in H;
      [discriminate |].
    inversion H; subst.
    destruct (IH eq_refl) as (pre & c0 & post & -> & Hpre & Hc0).
    exists (c :: pre), c0, post. split; [reflexivity |]. split; [| assumption].
    intros c' [<- | Hin]; [eauto | auto].
  - inversion H; subst. exists [], c, col. split; [reflexivity |].
    split; [intros c' [] | assumption].
Qed.

Lemma astype_float_total (col : list Cell) :
  (exists xs, converts col xs)
  \/ (exists c e, In c col /\ cell_to_float c = Error e).
Proof.
  induction col as [| c col [(xs & IH) | (c' & e & Hin & He)]].
  - left. exists []. constructor.
  - destruct (cell_to_float c) as [x|e] eqn:Ec.
    + left. exists (x :: xs). now constructor.
    + right. exists c, e. split; [now left | assumption].
  - right. exists c', e. split; [now right | assumption].
Qed.

Lemma cell_to_float_error (c : Cell) (e : Exception) :
  cell_to_float (replace_cell c) = Error e ->
  exists s, c = CStr s /\ float_of_string (strip_currency s) = None
            /\ e = CouldNotConvert (strip_currency s).
Proof.
  destruct c as [n | x | s]; cbn; try discriminate.
  destruct (float_of_string (strip_currency s)) eqn:E; [discriminate |].
  intros H; inversion H. eauto.
Qed.

Lemma cleaned_value_spec (c : Cell) (x : F) :
  cell_to_float (replace_cell c) = Ok x <-> cleaned_value c x.
Proof.
  destruct c as [n | y | s]; cbn.
  - split; [intros H; now inversion H | now intros ->].
  - split; [intros H; now inversion H | now intros ->].
  - destruct (float_of_string (strip_currency s)) as [v |].
    + split; intros H; inversion H; reflexivity.
    + split; discriminate.
Qed.

Lemma converts_cleaned (col : list Cell) (xs : list F) :
  converts (map replace_cell col) xs <-> Forall2 cleaned_value col xs.
Proof.
  unfold converts. revert xs.
  induction col as [| c col IH]; intros xs; cbn [map]; split; intros H;
    inversion H; subst; constructor;
    try (now apply cleaned_value_spec); now apply IH.
Qed.

(** C4.  The normalizer removes from a string cell exactly the characters
    [$] and [,] and keeps the others in place; when every cell converts it
    returns the floats of the cells, as many and in the same order; and when
    some string cell is still not a number after the removal the whole column
    fails, with the error that carries the text of the first such cell; no
    other outcome exists, so no cell is skipped and nothing partial is
    returned.  The floats returned are, cell by cell, [float(n)] for an
    integer [n], the float itself for a float, and for a string what [float]
    reads in it after the removal. *)
Theorem clean_currency_strict (col : list Cell) :
  (forall s,
      list_ascii_of_string (strip_currency s)
      = filter (fun c => negb (currency_char c)) (list_ascii_of_string s))
  /\ (forall c, currency_char c = true <-> c = "$"%char \/ c = ","%char)
  /\ (forall out,
        clean_currency col = Ok out <->
        exists xs, out = map CFloat xs
                   /\ List.length xs = List.length col
                   /\ converts (map replace_cell col) xs)
  /\ ((exists s, In (CStr s) col /\ float_of_string (strip_currency s) = None)
      -> exists pre s post,
        col = pre ++ CStr s :: post
        /\ (forall c, In c pre ->
                      exists x, cell_to_float (replace_cell c) = Ok x)
        /\ float_of_string (strip_currency s) = None
        /\ clean_currency col = Error (CouldNotConvert (strip_currency s)))
  /\ (forall e,
        clean_currency col = Error e ->
        exists s, In (CStr s) col
                  /\ float_of_string (strip_currency s) = None
                  /\ e = CouldNotConvert (strip_currency s))
  /\ (forall out,
        clean_currency col = Ok out <->
        exists xs, out = map CFloat xs /\ Forall2 cleaned_value col xs).
Proof.
  split; [exact strip_currency_chars |].
  split; [exact currency_char_spec |].
  unfold clean_currency.
  assert (Herr : forall e, astype_float (map replace_cell col) = Error e ->
            exists pre s post,
              col = pre ++ CStr s :: post
              /\ (forall c, In c pre ->
                            exists x, cell_to_float (replace_cell c) = Ok x)
              /\ float_of_string (strip_currency s) = None
              /\ e = CouldNotConvert (strip_currency s)).
  { intros e H.
    destruct (astype_float_error_inv _ _ H) as (pre' & c' & post' & Hsplit & Hpre & Hc).
    apply map_eq_app in Hsplit.
    destruct Hsplit as (pre & rest & -> & <- & Hrest).
    destruct rest as [| c post]; [discriminate |]. cbn in Hrest.
    inversion Hrest; subst.
    destruct (cell_to_float_error _ _ Hc) as (s & -> & Hs & ->).
    exists pre, s, post. repeat split; auto.
    intros c Hin. apply Hpre. now apply in_map. }
  split; [| split; [| split]].
  - intros out. split.
    + intros H. destruct (astype_float_inv _ _ H) as (xs & -> & Hxs).
      exists xs. repeat split; [| assumption].
      apply Forall2_length in Hxs. now rewrite length_map in Hxs.
    + intros (xs & -> & _ & Hxs). now apply astype_float_ok.
  - intros (s & Hin & Hs).
    destruct (astype_float (map replace_cell col)) as [out|e] eqn:E.
    + exfalso. destruct (astype_float_inv _ _ E) as (xs & _ & Hxs).
      destruct (converts_in _ _ _ Hxs (in_map replace_cell _ _ Hin)) as (x & Hx).
      cbn in Hx. now rewrite Hs in Hx.
    + destruct (Herr e eq_refl) as (pre & s' & post & -> & Hpre & Hs' & ->).
      exists pre, s', post. auto.
  - intros e H.
    destruct (Herr e H) as (pre & s & post & -> & _ & Hs & ->).
    exists s. repeat split; auto. apply in_elt.
  - intros out. split.
    + intros H. destruct (astype_float_inv _ _ H) as (xs & -> & Hxs).
      exists xs. split; [reflexivity |]. now apply converts_cleaned.
    + intros (xs & -> & Hxs). apply astype_float_ok.
      now apply converts_cleaned.
Qed.

(** ** Reconciler *)

Lemma metric_rows_wide (data : list (Z * F)) :
  map metric_row data = map wide_row (single data).
Proof.
  unfold single. rewrite map_map. reflexivity.
Qed.

Lemma key_test_wide (l : Z * list F) (r : Z * F) :
  cell_eqb (nth 0 (wide_row l) (CStr "")) (nth 0 (metric_row r) (CStr ""))
  = (fst l =? fst r).
Proof. reflexivity. Qed.

Lemma paired_row_wide (l : Z * list F) (r : Z * F) :
  wide_row l ++ drop_nth 0 (metric_row r)
  = wide_row (fst l, snd l ++ [snd r]).
Proof.
  unfold wide_row, metric_row. cbn [drop_nth fst snd].
  rewrite map_app. reflexivity.
Qed.

(** The rows of the frame-level join are those of [join]. *)
Lemma merge_rows_join (L : list (Z * list F)) (R : list (Z * F)) :
  merge_rows 0 0 (map wide_row L) (map metric_row R) = map wide_row (join L R).
Proof.
  unfold merge_rows, join.
  induction L as [| l L IH]; [reflexivity |].
  cbn [map flat_map]. rewrite map_app, IH. f_equal.
  clear IH. induction R as [| r R IH]; [reflexivity |].
  cbn [map filter]. rewrite key_test_wide.
  destruct (fst l =? fst r); cbn [map]; rewrite IH; [| reflexivity].
  now rewrite paired_row_wide.
Qed.

(** One step of the merge chain, on a frame whose first column is the year. *)
Lemma merge_wide (cols : list string) (label : string)
    (L : list (Z * list F)) (R : list (Z * F)) :
  merge (mkDataFrame (year_label :: cols) (map wide_row L))
        (metric_table label R) year_label
  = Ok (mkDataFrame
          (merge_columns year_label (year_label :: cols) [year_label; label])
          (map wide_row (join L R))).
Proof.
  unfold merge, metric_table. cbn [columns rows col_index].
  rewrite String.eqb_refl, merge_rows_join. reflexivity.
Qed.

(** The reconciler on cleaned tables: it returns a frame, with the five
    labels and the rows of [joined]. *)
Lemma reconcile_cleaned (revenue subs content income : list (Z * F)) :
  reconcile (cleaned_tables revenue subs content income)
  = Ok (mkDataFrame reconciled_columns
          (map wide_row (joined revenue subs content income))).
Proof.
  unfold reconcile, cleaned_tables, joined.
  cbn [revenue_df subs_df content_df income_df].
  unfold metric_table at 1. rewrite (metric_rows_wide revenue).
  rewrite merge_wide. cbn [rbind].
  change (merge_columns year_label [year_label; revenue_label]
            [year_label; subs_label])
    with [year_label; revenue_label; subs_label].
  rewrite merge_wide. cbn [rbind].
  change (merge_columns year_label [year_label; revenue_label; subs_label]
            [year_label; content_label])
    with [year_label; revenue_label; subs_label; content_label].
  rewrite merge_wide. reflexivity.
Qed.

Lemma getitem_year_wide (cols : list string) (out : list (Z * list F)) :
  getitem (mkDataFrame (year_label :: cols) (map wide_row out)) year_label
  = Ok (map CInt (map fst out)).
Proof.
  unfold getitem. cbn. rewrite !map_map. reflexivity.
Qed.

Lemma occurrences_cons {A} (k : Z) (a : Z * A) (l : list (Z * A)) :
  occurrences k (a :: l)
  = ((if (k =? fst a)%Z then 1 else 0) + occurrences k l)%nat.
Proof.
  unfold occurrences. cbn. destruct (k =? fst a); reflexivity.
Qed.

Lemma occurrences_app {A} (k : Z) (l l' : list (Z * A)) :
  occurrences k (l ++ l') = (occurrences k l + occurrences k l')%nat.
Proof.
  unfold occurrences. now rewrite filter_app, length_app.
Qed.

Lemma occurrences_In {A} (k : Z) (l : list (Z * A)) :
  In k (map fst l) <-> (0 < occurrences k l)%nat.
Proof.
  induction l as [| a l IH]; cbn [map In].
  - unfold occurrences. cbn. lia.
  - rewrite occurrences_cons, IH.
    destruct (Z.eqb_spec k (fst a)) as [E | E]; split.
    + lia.
    + auto.
    + intros [E' | H]; [congruence | lia].
    + intros H. right. lia.
Qed.

Lemma occurrences_NoDup {A} (l : list (Z * A)) :
  NoDup (map fst l) <-> forall k, (occurrences k l <= 1)%nat.
Proof.
  induction l as [| a l IH]; cbn [map].
  - split; [intros _ k; unfold occurrences; cbn; lia | constructor].
  - split.
    + intros H k. inversion H as [| ? ? Hnin Hnd]; subst.
      rewrite occurrences_cons.
      destruct (Z.eqb_spec k (fst a)) as [-> |].
      * rewrite occurrences_In in Hnin. lia.
      * pose proof (proj1 IH Hnd k). lia.
    + intros H. constructor.
      * rewrite occurrences_In. specialize (H (fst a)).
        rewrite occurrences_cons, Z.eqb_refl in H. lia.
      * apply IH. intros k. specialize (H k).
        rewrite occurrences_cons in H. lia.
Qed.

Lemma has_year_occurrences {A} (k : Z) (l : list (Z * A)) :
  has_year k l = true <-> (0 < occurrences k l)%nat.
Proof.
  rewrite <- occurrences_In. unfold has_year. rewrite existsb_exists.
  rewrite in_map_iff. split.
  - intros (a & Hin & E). apply Z.eqb_eq in E. exists a. auto.
  - intros (a & E & Hin). exists a. split; [assumption |]. now apply Z.eqb_eq.
Qed.

(** A year occurs in a join as often as on the left times as often as on
    the right. *)
Lemma occurrences_join (k : Z) (L : list (Z * list F)) (R : list (Z * F)) :
  occurrences k (join L R) = (occurrences k L * occurrences k R)%nat.
Proof.
  unfold join. induction L as [| l L IH]; [reflexivity |].
  cbn [flat_map]. rewrite occurrences_app, occurrences_cons, IH.
  assert (E : occurrences k
                (map (fun r => (fst l, snd l ++ [snd r]))
                     (filter (fun r => fst l =? fst r) R))
              = ((if (k =? fst l)%Z then 1 else 0) * occurrences k R)%nat).
  { clear IH. induction R as [| r R IHR]; cbn [filter map].
    - unfold occurrences. cbn. lia.
    - rewrite (occurrences_cons k r).
      destruct (Z.eqb_spec (fst l) (fst r)) as [E | E].
      + cbn [map]. rewrite occurrences_cons. cbn [fst]. rewrite IHR, <- E.
        destruct (k =? fst l); lia.
      + rewrite IHR.
        destruct (Z.eqb_spec k (fst l)); destruct (Z.eqb_spec k (fst r)); lia. }
  rewrite E. lia.
Qed.

Lemma occurrences_single (k : Z) (data : list (Z * F)) :
  occurrences k (single data) = occurrences k data.
Proof.
  unfold single. induction data as [| a l IH]; [reflexivity |].
  cbn [map]. rewrite !occurrences_cons, IH. reflexivity.
Qed.

Lemma occurrences_joined (k : Z) (revenue subs content income : list (Z * F)) :
  occurrences k (joined revenue subs content income)
  = (occurrences k revenue * occurrences k subs
     * occurrences k content * occurrences k income)%nat.
Proof.
  unfold joined. now rewrite !occurrences_join, occurrences_single.
Qed.

(** The rows of a join: a left row and a right row of the same year. *)
Lemma in_join (y : Z) (vs : list F) (L : list (Z * list F)) (R : list (Z * F)) :
  In (y, vs) (join L R)
  <-> exists vs0 v, vs = vs0 ++ [v] /\ In (y, vs0) L /\ In (y, v) R.
Proof.
  unfold join. rewrite in_flat_map. split.
  - intros ([k vs0] & HL & Hin). cbn [fst snd] in Hin.
    apply in_map_iff in Hin. destruct Hin as ([k' v] & E & Hf).
    apply filter_In in Hf. destruct Hf as (HR & Hk). cbn [fst snd] in *.
    apply Z.eqb_eq in Hk. inversion E; subst. eauto.
  - intros (vs0 & v & -> & HL & HR). exists (y, vs0). split; [assumption |].
    cbn [fst snd]. apply in_map_iff. exists (y, v). split; [reflexivity |].
    apply filter_In. split; [assumption |]. cbn. apply Z.eqb_refl.
Qed.

Lemma in_joined (y : Z) (vs : list F) (revenue subs content income : list (Z * F)) :
  In (y, vs) (joined revenue subs content income)
  <-> exists a b c d,
      vs = [a; b; c; d] /\ In (y, a) revenue /\ In (y, b) subs
      /\ In (y, c) content /\ In (y, d) income.
Proof.
  unfold joined. rewrite in_join. split.
  - intros (vs3 & d & -> & H3 & Hd). apply in_join in H3.
    destruct H3 as (vs2 & c & -> & H2 & Hc). apply in_join in H2.
    destruct H2 as (vs1 & b & -> & H1 & Hb). unfold single in H1.
    apply in_map_iff in H1. destruct H1 as ([k a] & E & Ha).
    cbn in E. inversion E; subst. exists a, b, c, d. auto.
  - intros (a & b & c & d & -> & Ha & Hb & Hc & Hd).
    exists [a; b; c], d. repeat split; auto.
    apply in_join. exists [a; b], c. repeat split; auto.
    apply in_join. exists [a], b. repeat split; auto.
    unfold single. apply in_map_iff. exists (y, a). auto.
Qed.

Lemma product_le_1 (a b c d : nat) :
  (a <= 1 -> b <= 1 -> c <= 1 -> d <= 1 -> a * b * c * d <= 1)%nat.
Proof.
  intros Ha Hb Hc Hd.
  assert (Ea : a = 0%nat \/ a = 1%nat) by lia.
  assert (Eb : b = 0%nat \/ b = 1%nat) by lia.
  assert (Ec : c = 0%nat \/ c = 1%nat) by lia.
  assert (Ed : d = 0%nat \/ d = 1%nat) by lia.
  destruct Ea, Eb, Ec, Ed; subst; cbn; lia.
Qed.

Lemma product_positive (a b c d : nat) :
  (0 < a * b * c * d <-> 0 < a /\ 0 < b /\ 0 < c /\ 0 < d)%nat.
Proof.
  destruct a, b, c, d; cbn; rewrite ?Nat.mul_0_r; cbn; lia.
Qed.

Lemma keys_single (data : list (Z * F)) :
  map fst (single data) = map fst data.
Proof.
  unfold single. rewrite map_map. reflexivity.
Qed.

(** With unique years on the right, a join keeps the left rows whose year
    the right table has, in their order. *)
Lemma join_keys_filter (L : list (Z * list F)) (R : list (Z * F)) :
  NoDup (map fst R) ->
  map fst (join L R) = filter (fun k => has_year k R) (map fst L).
Proof.
  intros Hnd. unfold join.
  induction L as [| l L IH]; [reflexivity |].
  cbn [flat_map map filter]. rewrite map_app, IH, map_map. cbn [fst].
  pose proof (proj1 (occurrences_NoDup R) Hnd (fst l)) as Hle.
  pose proof (has_year_occurrences (fst l) R) as Hhas.
  unfold occurrences in Hle, Hhas.
  destruct (filter (fun r => fst l =? fst r) R) as [| r [| r' rest]];
    cbn [List.length map app] in *.
  - destruct (has_year (fst l) R); [| reflexivity].
    exfalso. destruct Hhas as [H _]. specialize (H eq_refl). lia.
  - destruct (has_year (fst l) R); [reflexivity |].
    exfalso. destruct Hhas as [_ H]. assert (false = true) by (apply H; lia).
    discriminate.
  - lia.
Qed.

Lemma filter_twice {A} (f g : A -> bool) (l : list A) :
  filter g (filter f l) = filter (fun x => f x && g x) l.
Proof.
  induction l as [| a l IH]; [reflexivity |].
  cbn. destruct (f a); cbn; [destruct (g a) |]; now rewrite IH.
Qed.

Lemma joined_keys_filter (revenue subs content income : list (Z * F)) :
  NoDup (map fst subs) -> NoDup (map fst content) -> NoDup (map fst income) ->
  map fst (joined revenue subs content income)
  = filter (fun k => has_year k subs && has_year k content
                     && has_year k income)
           (map fst revenue).
Proof.
  intros H2 H3 H4. unfold joined.
  rewrite !join_keys_filter by assumption.
  rewrite keys_single, !filter_twice. apply filter_ext. intros k.
  now rewrite ?andb_assoc.
Qed.

Lemma StronglySorted_filter {A} (R : A -> A -> Prop) (f : A -> bool)
    (l : list A) :
  StronglySorted R l -> StronglySorted R (filter f l).
Proof.
  induction 1 as [| a l Hs IH Hall]; cbn; [constructor |].
  destruct (f a); [| assumption]. constructor; [assumption |].
  rewrite Forall_forall in *. intros x Hx. apply Hall.
  apply filter_In in Hx. tauto.
Qed.

Lemma Sorted_le_filter (f : Z -> bool) (l : list Z) :
  Sorted Z.le l -> Sorted Z.le (filter f l).
Proof.
  intros H. apply StronglySorted_Sorted, StronglySorted_filter.
  apply Sorted_StronglySorted; [| assumption].
  intros x y z. apply Z.le_trans.
Qed.

Lemma Permutation_filter_rows {A} (f : A -> bool) (l l' : list A) :
  Permutation l l' -> Permutation (filter f l) (filter f l').
Proof.
  induction 1 as [| x l l' _ IH | x y l | l l' l'' _ IH1 _ IH2]; cbn.
  - constructor.
  - destruct (f x); [now constructor | assumption].
  - destruct (f x), (f y); try apply Permutation_refl. constructor.
  - now transitivity (filter f l').
Qed.

(** The rows of a year do not depend on the row order of a table whose
    years are unique. *)
Lemma matches_unordered (k : Z) (R R' : list (Z * F)) :
  NoDup (map fst R) -> Permutation R R' ->
  filter (fun r => k =? fst r) R = filter (fun r => k =? fst r) R'.
Proof.
  intros Hnd Hperm.
  pose proof (proj1 (occurrences_NoDup R) Hnd k) as Hle.
  pose proof (Permutation_filter_rows (fun r => k =? fst r) _ _ Hperm) as Hp.
  unfold occurrences in Hle.
  destruct (filter (fun r => k =? fst r) R) as [| r [| r' rest]];
    cbn [List.length] in Hle.
  - apply Permutation_nil in Hp. now rewrite Hp.
  - apply Permutation_length_1_inv in Hp. now rewrite Hp.
  - lia.
Qed.

Lemma join_unordered (L : list (Z * list F)) (R R' : list (Z * F)) :
  NoDup (map fst R) -> Permutation R R' -> join L R' = join L R.
Proof.
  intros Hnd Hperm. unfold join. apply flat_map_ext. intros l.
  now rewrite (matches_unordered (fst l) R R').
Qed.

(** C1 (as amended).  For every four cleaned metric tables, with or without
    repeated years, the reconciler raises nothing and returns the joined
    frame; every row of it puts together one row of each table for the same
    year, and a year is carried by as many output rows as there are such
    combinations: the product of the numbers of rows it has in the four
    tables. *)
Theorem reconcile_fans_out (revenue subs content income : list (Z * F)) :
  reconcile (cleaned_tables revenue subs content income)
  = Ok (mkDataFrame reconciled_columns
          (map wide_row (joined revenue subs content income)))
  /\ (forall y vs,
        In (y, vs) (joined revenue subs content income)
        <-> exists a b c d,
            vs = [a; b; c; d] /\ In (y, a) revenue /\ In (y, b) subs
            /\ In (y, c) content /\ In (y, d) income)
  /\ (forall k,
        occurrences k (joined revenue subs content income)
        = (occurrences k revenue * occurrences k subs
           * occurrences k content * occurrences k income)%nat).
Proof.
  split; [apply reconcile_cleaned |].
  split; [intros y vs; apply in_joined | intros k; apply occurrences_joined].
Qed.

(** C2.  For four cleaned metric tables with unique years, the reconciler
    returns a frame whose year column holds exactly the years common to the
    four tables, each once; every row carries the four values the tables
    have for its year, none filled in.  For the key sets 2019-2021,
    2019-2020, 2020-2021 and 2019-2021 the year column is 2020 alone. *)
Theorem reconcile_intersection (revenue subs content income : list (Z * F)) :
  NoDup (map fst revenue) -> NoDup (map fst subs) ->
  NoDup (map fst content) -> NoDup (map fst income) ->
  (exists out,
      reconcile (cleaned_tables revenue subs content income)
      = Ok (mkDataFrame reconciled_columns (map wide_row out))
      /\ getitem (mkDataFrame reconciled_columns (map wide_row out)) year_label
         = Ok (map CInt (map fst out))
      /\ NoDup (map fst out)
      /\ (forall k,
            In k (map fst out)
            <-> In k (map fst revenue) /\ In k (map fst subs)
                /\ In k (map fst content) /\ In k (map fst income))
      /\ (forall y vs,
            In (y, vs) out ->
            exists a b c d,
              vs = [a; b; c; d] /\ In (y, a) revenue /\ In (y, b) subs
              /\ In (y, c) content /\ In (y, d) income))
  /\ (forall v1 v2 v3 v4 : Z -> F,
        rbind (reconcile
                 (cleaned_tables
                    (map (fun k => (k, v1 k)) [2019; 2020; 2021])
                    (map (fun k => (k, v2 k)) [2019; 2020])
                    (map (fun k => (k, v3 k)) [2020; 2021])
                    (map (fun k => (k, v4 k)) [2019; 2020; 2021])))
              (fun df => getitem df year_label)
        = Ok [CInt 2020]).
Proof.
  intros H1 H2 H3 H4. split.
  - exists (joined revenue subs content income).
    split; [apply reconcile_cleaned |].
    split; [apply getitem_year_wide |].
    split; [| split].
    + apply occurrences_NoDup. intros k. rewrite occurrences_joined.
      pose proof (proj1 (occurrences_NoDup revenue) H1 k).
      pose proof (proj1 (occurrences_NoDup subs) H2 k).
      pose proof (proj1 (occurrences_NoDup content) H3 k).
      pose proof (proj1 (occurrences_NoDup income) H4 k).
      now apply product_le_1.
    + intros k. rewrite !occurrences_In, occurrences_joined.
      apply product_positive.
    + intros y vs. apply in_joined.
  - intros v1 v2 v3 v4. rewrite reconcile_cleaned. cbn [rbind].
    unfold reconciled_columns. rewrite getitem_year_wide. reflexivity.
Qed.

(** C3 (as amended).  The reconciler returns the rows in the order of the
    Revenue table: for tables whose years are unique in Subscribers, Content
    Spend and Net Income, the year column is the Revenue year column without
    the years another table lacks.  It is therefore ascending when the
    Revenue table is, and the output does not change when the rows of the
    other three tables are put in another order. *)
Theorem reconcile_revenue_order (revenue subs content income : list (Z * F)) :
  NoDup (map fst subs) -> NoDup (map fst content) -> NoDup (map fst income) ->
  reconcile (cleaned_tables revenue subs content income)
  = Ok (mkDataFrame reconciled_columns
          (map wide_row (joined revenue subs content income)))
  /\ map fst (joined revenue subs content income)
     = filter (fun k => has_year k subs && has_year k content
                        && has_year k income)
              (map fst revenue)
  /\ (Sorted Z.le (map fst revenue) ->
      Sorted Z.le (map fst (joined revenue subs content income)))
  /\ (forall subs' content' income',
        Permutation subs subs' -> Permutation content content' ->
        Permutation income income' ->
        reconcile (cleaned_tables revenue subs' content' income')
        = reconcile (cleaned_tables revenue subs content income)).
Proof.
  intros H2 H3 H4.
  split; [apply reconcile_cleaned |].
  split; [now apply joined_keys_filter |].
  split.
  - intros Hs. rewrite joined_keys_filter by assumption.
    now apply Sorted_le_filter.
  - intros subs' content' income' P2 P3 P4.
    rewrite !reconcile_cleaned. unfold joined.
    rewrite (join_unordered _ income income') by assumption.
    rewrite (join_unordered _ content content') by assumption.
    rewrite (join_unordered _ subs subs') by assumption.
    reflexivity.
Qed.

(** ** Traces *)

Lemma bind_lift_ok {A B} (a : A) (k : A -> @Run F B) :
  bind (lift (Ok a)) k = k a.
Proof.
  unfold bind, lift. now destruct (k a).
Qed.

Lemma bind_lift_error {A B} (e : Exception) (k : A -> @Run F B) :
  bind (lift (Error e)) k = ([], Error e).
Proof. reflexivity. Qed.

Lemma bind_emit {B} (ev : Event) (k : unit -> @Run F B) :
  bind (emit ev) k = (ev :: fst (k tt), snd (k tt)).
Proof.
  unfold bind, emit. now destruct (k tt).
Qed.

Lemma bind_head {A B} (m : @Run F A) (k : A -> @Run F B)
    (ev : Event) (log : list Event) (r : Result A) :
  m = (ev :: log, r) -> exists log' r', bind m k = (ev :: log', r').
Proof.
  intros ->. unfold bind. destruct r as [a | e]; [| eauto].
  destruct (k a) as [log' r']. cbn. eauto.
Qed.

Lemma bind_ok {A B} (log : list Event) (a : A) (k : A -> @Run F B) :
  bind (log, Ok a) k = (log ++ fst (k a), snd (k a)).
Proof.
  unfold bind. now destruct (k a).
Qed.

Lemma bind_error {A B} (log : list Event) (e : Exception) (k : A -> @Run F B) :
  bind (log, Error e) k = (log, Error e).
Proof. reflexivity. Qed.

(** ** Insight Extractor *)

Lemma group_get_above (y : Z) (groups : list (Z * list F)) :
  Forall (fun k => y < k) (map fst groups) -> group_get y groups = None.
Proof.
  induction groups as [| [y' vs] g IH]; cbn; intros H; [reflexivity |].
  inversion H; subst. destruct (Z.eqb_spec y y'); [lia | auto].
Qed.

Lemma group_insert_keys (y k : Z) (v : F) (groups : list (Z * list F)) :
  In k (map fst (group_insert y v groups)) ->
  k = y \/ In k (map fst groups).
Proof.
  induction groups as [| [y' vs] g IH]; cbn.
  - intros [<- | []]. now left.
  - destruct (y <? y'); [| destruct (y =? y')]; cbn.
    + intros [<- | H]; auto.
    + intros [<- | H]; auto.
    + intros [<- | H]; auto. destruct (IH H); auto.
Qed.

Lemma group_insert_sorted (y : Z) (v : F) (groups : list (Z * list F)) :
  StronglySorted Z.lt (map fst groups) ->
  StronglySorted Z.lt (map fst (group_insert y v groups)).
Proof.
  induction groups as [| [y' vs] g IH]; cbn; intros Hs.
  - repeat constructor.
  - inversion Hs as [| ? ? Hs' Hall]; subst.
    destruct (Z.ltb_spec y y'); [| destruct (Z.eqb_spec y y')]; cbn.
    + constructor; [assumption |]. constructor; [assumption |].
      rewrite Forall_forall in *. intros k Hk. specialize (Hall k Hk). lia.
    + assumption.
    + constructor; [auto |]. rewrite Forall_forall in *. intros k Hk.
      destruct (group_insert_keys _ _ _ _ Hk) as [-> | Hin]; [lia | auto].
Qed.

Lemma group_insert_get (y k : Z) (v : F) (groups : list (Z * list F)) :
  StronglySorted Z.lt (map fst groups) ->
  group_get k (group_insert y v groups)
  = if k =? y
    then Some (match group_get y groups with
               | Some vs => vs ++ [v]
               | None => [v]
               end)
    else group_get k groups.
Proof.
  induction groups as [| [y' vs] g IH]; cbn; intros Hs; [reflexivity |].
  inversion Hs as [| ? ? Hs' Hall]; subst.
  destruct (Z.ltb_spec y y') as [Hlt | Hge].
  - cbn. destruct (Z.eqb_spec k y) as [-> |]; [| reflexivity].
    destruct (Z.eqb_spec y y'); [lia |].
    rewrite group_get_above; [reflexivity |].
    rewrite Forall_forall in *. intros j Hj. specialize (Hall j Hj). lia.
  - destruct (Z.eqb_spec y y') as [-> | Hne]; cbn.
    + destruct (Z.eqb_spec k y'); reflexivity.
    + rewrite (IH Hs').
      destruct (Z.eqb_spec k y') as [-> |]; [| reflexivity].
      destruct (Z.eqb_spec y' y); [congruence | reflexivity].
Qed.

Lemma fold_group_insert (k : Z) (points : list ForecastPoint)
    (groups : list (Z * list F)) :
  StronglySorted Z.lt (map fst groups) ->
  let result :=
    fold_left (fun g p => group_insert (year (ds p)) (yhat p) g) points groups
  in
  StronglySorted Z.lt (map fst result)
  /\ group_get k result = extend (group_get k groups) (year_values k points).
Proof.
  revert groups. induction points as [| p ps IH]; intros groups Hs; cbn.
  - split; [assumption |].
    destruct (group_get k groups); cbn; [now rewrite app_nil_r | reflexivity].
  - destruct (IH _ (group_insert_sorted (year (ds p)) (yhat p) _ Hs))
      as (Hs' & Hget).
    split; [assumption |]. cbn in Hget. rewrite Hget.
    rewrite group_insert_get by assumption. unfold year_values. cbn [filter].
    rewrite (Z.eqb_sym (year (ds p)) k).
    destruct (Z.eqb_spec k (year (ds p))) as [-> |]; [| reflexivity].
    cbn [map].
    destruct (group_get (year (ds p)) groups); cbn;
      [now rewrite <- app_assoc | reflexivity].
Qed.

Lemma groupby_year_get (k : Z) (points : list ForecastPoint) :
  StronglySorted Z.lt (map fst (groupby_year points))
  /\ group_get k (groupby_year points) = extend None (year_values k points).
Proof.
  apply (fold_group_insert k points []). constructor.
Qed.

Lemma series_get_map (k : Z) (f : list F -> F) (groups : list (Z * list F)) :
  series_get k (map (fun g => (fst g, f (snd g))) groups)
  = option_map f (group_get k groups).
Proof.
  induction groups as [| [y vs] g IH]; cbn; [reflexivity |].
  destruct (k =? y); [reflexivity | assumption].
Qed.

Lemma year_values_future (latest k : Z) (points : list ForecastPoint) :
  year_values k (future_forecast (Some latest) points)
  = if latest <? k then year_values k points else [].
Proof.
  unfold year_values, future_forecast. rewrite filter_twice.
  destruct (Z.ltb_spec latest k) as [Hlt | Hge].
  - f_equal. apply filter_ext. intros p.
    destruct (Z.eqb_spec (year (ds p)) k) as [-> |];
      [| now rewrite andb_false_r].
    apply Z.ltb_lt in Hlt. now rewrite Hlt.
  - replace (filter _ points) with (@nil ForecastPoint); [reflexivity |].
    symmetry. induction points as [| p ps IH]; [reflexivity |]. cbn.
    destruct (Z.ltb_spec latest (year (ds p)));
      destruct (Z.eqb_spec (year (ds p)) k); cbn; try assumption. lia.
Qed.

Lemma year_values_nonempty (k : Z) (points : list ForecastPoint) :
  year_values k points <> [] <-> exists p, In p points /\ year (ds p) = k.
Proof.
  unfold year_values. split.
  - intros H.
    destruct (filter (fun p => year (ds p) =? k) points) as [| p ps] eqn:E;
      [now contradiction H |].
    assert (Hin : In p (filter (fun p => year (ds p) =? k) points))
      by (rewrite E; now left).
    apply filter_In in Hin. destruct Hin as (Hin & Hk).
    apply Z.eqb_eq in Hk. eauto.
  - intros (p & Hin & Hk) H.
    assert (Hf : In p (filter (fun p => year (ds p) =? k) points)).
    { apply filter_In. split; [assumption |]. now apply Z.eqb_eq. }
    apply (in_map yhat) in Hf. rewrite H in Hf. destruct Hf.
Qed.

(** The entry of a year in the annual series. *)
Lemma annual_pred_get (latest y : Z) (forecast : list ForecastPoint) :
  series_get y (annual_pred (Some latest) forecast)
  = if latest <? y
    then match year_values y forecast with
         | [] => None
         | vs => Some (fround (fmean vs))
         end
    else None.
Proof.
  unfold annual_pred.
  rewrite (series_get_map y (fun vs => fround (fmean vs))).
  destruct (groupby_year_get y (future_forecast (Some latest) forecast))
    as (_ & ->).
  rewrite year_values_future.
  destruct (latest <? y); [| reflexivity].
  destruct (year_values y forecast); reflexivity.
Qed.

Lemma annual_pred_sorted (latest : option Z) (forecast : list ForecastPoint) :
  StronglySorted Z.lt (map fst (annual_pred latest forecast)).
Proof.
  unfold annual_pred. rewrite map_map. cbn [fst].
  apply (groupby_year_get 0).
Qed.

Lemma future_forecast_fitted (latest : Z) (fitted : list ForecastPoint) :
  (forall p, In p fitted -> year (ds p) <= latest) ->
  future_forecast (Some latest) fitted = [].
Proof.
  induction fitted as [| p ps IH]; intros H; [reflexivity |]. cbn.
  pose proof (H p (or_introl eq_refl)).
  destruct (Z.ltb_spec latest (year (ds p))); [lia |].
  apply IH. intros q Hq. apply H. now right.
Qed.

Lemma arg_best_in (beats : F -> F -> bool) (best : Z * F) (s : list (Z * F)) :
  In (arg_best beats best s) (map fst (best :: s)).
Proof.
  revert best. induction s as [| [y v] s IH]; intros best; cbn.
  - now left.
  - destruct (beats v (snd best)).
    + right. apply (IH (y, v)).
    + destruct (IH best) as [H | H]; [now left | right; now right].
Qed.

Lemma series_get_in (y : Z) (s : list (Z * F)) :
  In y (map fst s) -> exists v, series_get y s = Some v.
Proof.
  induction s as [| [y' v] s IH]; cbn; [intros [] |].
  intros H. destruct (Z.eqb_spec y y') as [-> | Hne]; [eauto |].
  destruct H as [H | H]; [congruence | auto].
Qed.

Lemma show_next_year_ok (latest : option Z) (annual : list (Z * F)) :
  snd (show_next_year latest annual) = Ok tt.
Proof.
  unfold show_next_year. destruct latest as [l |]; [| reflexivity].
  destruct (series_get (l + 1) annual); reflexivity.
Qed.

(** On a series that is not empty the two extreme years are found and
    their lines are printed after the line of the next year, if any. *)
Lemma extract_insights_nonempty (latest : option Z)
    (forecast : list ForecastPoint) :
  annual_pred latest forecast <> [] ->
  exists ymax ymin hi lo,
    idxmax (annual_pred latest forecast) = Ok ymax
    /\ idxmin (annual_pred latest forecast) = Ok ymin
    /\ extract_insights latest forecast
       = (fst (show_next_year latest (annual_pred latest forecast))
            ++ [EvMarkdown (Highest hi ymax); EvMarkdown (Lowest lo ymin)],
          Ok tt).
Proof.
  intros Hne. unfold extract_insights.
  destruct (annual_pred latest forecast) as [| p s] eqn:E;
    [now contradiction Hne |].
  pose proof (show_next_year_ok latest (p :: s)) as Hshow.
  destruct (show_next_year latest (p :: s)) as [log r]. cbn in Hshow. subst r.
  destruct (series_get_in _ _ (arg_best_in (fun v b => fltb b v) p s))
    as (vmax & Hmax).
  destruct (series_get_in _ _ (arg_best_in (fun v b => fltb v b) p s))
    as (vmin & Hmin).
  exists (arg_best (fun v b => fltb b v) p s),
         (arg_best (fun v b => fltb v b) p s),
         (int_of_float vmax), (int_of_float vmin).
  split; [reflexivity |]. split; [reflexivity |].
  rewrite bind_ok. cbn [idxmax idxmin]. rewrite !bind_lift_ok.
  unfold amount_at. rewrite Hmax, Hmin.
  rewrite bind_lift_ok, bind_emit, bind_lift_ok. reflexivity.
Qed.

(** C8.  For every forecast and latest known year, the annual series has an
    entry for a year exactly when the year is later than the latest known
    year and the forecast has a point in it; the entry is the rounded mean of
    the estimates of that year's points; its years are distinct and
    ascending; points of the latest known year or before change nothing; and
    the line for the next year is printed with that entry when the series has
    the next year, and left out, with no error, when it has not: on a series
    that has other years the two lines that follow are printed as usual. *)
Theorem annual_pred_future_years (latest : Z) (forecast : list ForecastPoint) :
  (forall y,
      (exists v, series_get y (annual_pred (Some latest) forecast) = Some v)
      <-> latest < y /\ exists p, In p forecast /\ year (ds p) = y)
  /\ (forall y v,
        series_get y (annual_pred (Some latest) forecast) = Some v ->
        v = fround (fmean (year_values y forecast)))
  /\ StronglySorted Z.lt (map fst (annual_pred (Some latest) forecast))
  /\ (forall fitted,
        (forall p, In p fitted -> year (ds p) <= latest) ->
        annual_pred (Some latest) (fitted ++ forecast)
        = annual_pred (Some latest) forecast)
  /\ (series_get (latest + 1) (annual_pred (Some latest) forecast) = None ->
      show_next_year (Some latest) (annual_pred (Some latest) forecast)
      = ([], Ok tt))
  /\ (forall v,
        series_get (latest + 1) (annual_pred (Some latest) forecast) = Some v ->
        show_next_year (Some latest) (annual_pred (Some latest) forecast)
        = ([EvMarkdown (NextYear (latest + 1) (int_of_float v))], Ok tt))
  /\ (series_get (latest + 1) (annual_pred (Some latest) forecast) = None ->
      annual_pred (Some latest) forecast <> [] ->
      exists ymax ymin hi lo,
        extract_insights (Some latest) forecast
        = ([EvMarkdown (Highest hi ymax); EvMarkdown (Lowest lo ymin)],
           Ok tt)).
Proof.
  split; [| split; [| split; [| split; [| split; [| split]]]]].
  - intros y. rewrite annual_pred_get.
    pose proof (year_values_nonempty y forecast) as Hne.
    destruct (Z.ltb_spec latest y) as [Hlt | Hge].
    + destruct (year_values y forecast) as [| x xs]; split.
      * intros (v & Hv). discriminate.
      * intros (_ & Hp). apply Hne in Hp. now contradiction Hp.
      * intros _. split; [assumption |]. apply Hne. discriminate.
      * intros _. eauto.
    + split; [intros (v & Hv); discriminate | intros (Hlt & _); lia].
  - intros y v. rewrite annual_pred_get.
    destruct (latest <? y); [| discriminate].
    destruct (year_values y forecast); [discriminate |].
    intros H. now inversion H.
  - apply annual_pred_sorted.
  - intros fitted Hfit. unfold annual_pred. f_equal. f_equal.
    unfold future_forecast. rewrite filter_app.
    change (filter _ fitted) with (future_forecast (Some latest) fitted).
    now rewrite (future_forecast_fitted latest fitted Hfit).
  - intros H. unfold show_next_year. now rewrite H.
  - intros v H. unfold show_next_year. now rewrite H.
  - intros Hnone Hne.
    destruct (extract_insights_nonempty (Some latest) forecast Hne)
      as (ymax & ymin & hi & lo & _ & _ & Hrun).
    exists ymax, ymin, hi, lo. rewrite Hrun.
    unfold show_next_year. now rewrite Hnone.
Qed.

Lemma annual_pred_empty (latest : Z) (forecast : list ForecastPoint) :
  (forall p, In p forecast -> year (ds p) <= latest) ->
  annual_pred (Some latest) forecast = [].
Proof.
  intros H. unfold annual_pred.
  now rewrite (future_forecast_fitted latest forecast H).
Qed.

Lemma extract_insights_empty (latest : Z) (forecast : list ForecastPoint) :
  annual_pred (Some latest) forecast = [] ->
  extract_insights (Some latest) forecast = ([], Error (EmptyArg "argmax")).
Proof.
  intros H. unfold extract_insights. rewrite H. reflexivity.
Qed.

(** From a day of a year on, the following days stay in that year as long
    as the year has days left. *)
Lemma days_after_same_year (n : nat) (d d' : Date) :
  dayofyear d + Z.of_nat n <= days_in_year (year d) ->
  In d' (days_after d n) -> year d' = year d.
Proof.
  revert d. induction n as [| n IH]; intros d Hle; cbn [days_after].
  - intros [].
  - assert (E : next_day d = mkDate (year d) (dayofyear d + 1)).
    { unfold next_day. destruct (Z.ltb_spec (dayofyear d) (days_in_year (year d)));
        [reflexivity | lia]. }
    rewrite E. intros [<- | Hin]; [reflexivity |].
    apply IH in Hin; [exact Hin |]. cbn [year dayofyear]. lia.
Qed.

Lemma to_datetime_all_length (col : list Cell) (dates : list Date) :
  to_datetime_all col = Ok dates -> List.length dates = List.length col.
Proof.
  revert dates. induction col as [| c col IH]; cbn; intros dates H.
  - now inversion H.
  - destruct (to_datetime c); cbn in H; [| discriminate].
    destruct (to_datetime_all col) as [rest|]; cbn in H; [| discriminate].
    inversion H; subst. cbn. now rewrite (IH rest eq_refl).
Qed.

Lemma to_datetime_all_error (col : list Cell) (e : Exception) :
  to_datetime_all col = Error e -> e = BadYear.
Proof.
  induction col as [| c col IH]; cbn; [discriminate |].
  destruct (to_datetime c) as [d | e'] eqn:Ec; cbn.
  - destruct (to_datetime_all col); cbn; [discriminate |].
    intros H. inversion H; subst. now apply IH.
  - intros H. inversion H; subst. destruct c as [y | |]; cbn in Ec;
      [destruct ((1678 <=? y) && (y <=? 2262)) |  |]; congruence.
Qed.

Lemma getitem_length (df : DataFrame) (label : string) (col : list Cell) :
  getitem df label = Ok col -> List.length col = List.length (rows df).
Proof.
  unfold getitem. destruct (col_index label (columns df)); [| discriminate].
  intros H. inversion H. apply length_map.
Qed.

Lemma getitem_error (df : DataFrame) (label : string) (e : Exception) :
  getitem df label = Error e -> e = KeyError label.
Proof.
  unfold getitem. destruct (col_index label (columns df)); [discriminate |].
  intros H. now inversion H.
Qed.

Lemma to_datetime_all_in_range (ys : list Z) :
  (forall y, In y ys -> 1678 <= y <= 2262) ->
  to_datetime_all (map (@CInt F) ys) = Ok (map (fun y => mkDate y 1) ys).
Proof.
  induction ys as [| y ys IH]; intros H; [reflexivity |]. cbn.
  destruct (H y (or_introl eq_refl)) as (Hlo & Hhi).
  apply Z.leb_le in Hlo, Hhi. rewrite Hlo, Hhi. cbn.
  rewrite IH by (intros z Hz; apply H; now right). reflexivity.
Qed.

Lemma combine_map {A B C} (f : A -> B) (g : A -> C) (l : list A) :
  combine (map f l) (map g l) = map (fun a => (f a, g a)) l.
Proof.
  induction l as [| a l IH]; cbn; [reflexivity |]. now rewrite IH.
Qed.

(** The builder on a reconciled frame of any number of rows, none
    included: one point per row, January 1 of the row's year with the cell of
    the revenue column. *)
Lemma build_series_reconciled (out : list (Z * list F)) :
  (forall r, In r out -> 1678 <= fst r <= 2262) ->
  build_series (mkDataFrame reconciled_columns (map wide_row out))
  = Ok (map (fun r => (mkDate (fst r) 1, nth 1 (wide_row r) (CStr ""))) out).
Proof.
  intros Hrange. unfold build_series, reconciled_columns.
  rewrite getitem_year_wide. cbn [rbind].
  unfold getitem. cbn [columns rows col_index].
  change (String.eqb year_label revenue_label) with false.
  rewrite String.eqb_refl. cbn [option_map rbind].
  rewrite to_datetime_all_in_range.
  - cbn [rbind]. rewrite !map_map, combine_map. reflexivity.
  - intros y Hy. apply in_map_iff in Hy. destruct Hy as (r & <- & Hr). auto.
Qed.

Section WithService.
Context {Model : Type} {svc : @Forecaster F Model}.

Lemma invoke_forecast_fitted (series : list (Date * Cell)) (h : Z)
    (m : Model) (future : list Date) :
  fit series = Ok m ->
  make_future_dataframe m (h * 365) = Ok future ->
  invoke_forecast series h
  = ([EvFit series; EvMakeFuture (h * 365); EvPredict future],
     predict m future).
Proof.
  intros Hfit Hfut. unfold invoke_forecast.
  rewrite bind_emit, Hfit, bind_lift_ok.
  rewrite bind_emit, Hfut, bind_lift_ok, bind_emit. reflexivity.
Qed.

(** C6 (as amended).  The Time-Series Builder turns every row of the
    reconciled frame into one point and looks at no count: it fails only on a
    missing column or on a year that is no timestamp.  Whatever the number of
    points, the first thing the run does with the series is to call the fit
    of the forecasting service on it, and a refusal of the series is the
    service's own error, passed on as it is.  On a reconciled frame of any
    number of rows, one or none included, whose years are timestamps, the
    builder succeeds with one point per row and the run calls the fit on
    that series. *)
Theorem series_passed_uncounted (df : DataFrame)
    (picked : option (SliderPos 1 10)) (series : list (Date * Cell)) :
  build_series df = Ok series ->
  List.length series = List.length (rows df)
  /\ (exists log r, forecast_and_report df picked = (EvFit series :: log, r))
  /\ (forall e, fit series = Error e ->
                forecast_and_report df picked = ([EvFit series], Error e))
  /\ (forall (df' : DataFrame) e, build_series df' = Error e ->
                    e = KeyError year_label \/ e = KeyError revenue_label
                    \/ e = BadYear)
  /\ (forall out : list (Z * list F),
        (forall r, In r out -> 1678 <= fst r <= 2262) ->
        build_series (mkDataFrame reconciled_columns (map wide_row out))
        = Ok (map (fun r => (mkDate (fst r) 1, nth 1 (wide_row r) (CStr "")))
                  out)
        /\ exists log r,
            forecast_and_report
              (mkDataFrame reconciled_columns (map wide_row out)) picked
            = (EvFit (map (fun r => (mkDate (fst r) 1,
                                     nth 1 (wide_row r) (CStr ""))) out)
                 :: log, r))
  /\ build_series (@mkDataFrame F reconciled_columns []) = Ok []
  /\ (forall (y : Z) (vs : list F),
        1678 <= y <= 2262 ->
        build_series (mkDataFrame reconciled_columns [wide_row (y, vs)])
        = Ok [(mkDate y 1, nth 1 (wide_row (y, vs)) (CStr ""))]).
Proof.
  intros Hb. split; [| split; [| split; [| split; [| split; [| split]]]]].
  - unfold build_series in Hb.
    destruct (getitem df year_label) as [years|] eqn:Ey; [| discriminate].
    destruct (getitem df revenue_label) as [revenue|] eqn:Er; [| discriminate].
    cbn [rbind] in Hb.
    destruct (to_datetime_all years) as [dates|] eqn:Ed; [| discriminate].
    cbn [rbind] in Hb. inversion Hb; subst. rewrite length_combine.
    rewrite (to_datetime_all_length _ _ Ed).
    rewrite (getitem_length _ _ _ Ey), (getitem_length _ _ _ Er). lia.
  - unfold forecast_and_report. rewrite Hb, bind_lift_ok.
    eapply bind_head. unfold invoke_forecast. rewrite bind_emit. reflexivity.
  - intros e He. unfold forecast_and_report. rewrite Hb, bind_lift_ok.
    unfold invoke_forecast. rewrite bind_emit, He, bind_lift_error.
    reflexivity.
  - intros df' e. unfold build_series.
    destruct (getitem df' year_label) as [years|] eqn:Ey; cbn [rbind].
    + destruct (getitem df' revenue_label) as [revenue|] eqn:Er; cbn [rbind].
      * destruct (to_datetime_all years) as [dates|] eqn:Ed; cbn [rbind];
          [discriminate |].
        intros H. inversion H; subst.
        right; right. now apply (to_datetime_all_error years).
      * intros H. inversion H; subst. right; left.
        now apply (getitem_error df').
    + intros H. inversion H; subst. left. now apply (getitem_error df').
  - intros out Hrange. split; [now apply build_series_reconciled |].
    unfold forecast_and_report.
    rewrite (build_series_reconciled out Hrange), bind_lift_ok.
    eapply bind_head. unfold invoke_forecast. rewrite bind_emit. reflexivity.
  - apply (build_series_reconciled []). intros r [].
  - intros y vs Hy. apply (build_series_reconciled [(y, vs)]).
    intros r [<- | []]. exact Hy.
Qed.

(** The outcomes of the invoker: it calls the fit of the service, then asks
    the service for a future frame of [h * 365] days, then for the
    prediction; the outcome is the prediction, or the error of the service
    call that failed. *)
Lemma invoke_forecast_outcomes (series : list (Date * Cell)) (h : Z) :
  (forall picked : option (SliderPos 1 10), 1 <= slider 1 10 5 picked <= 10)
  /\ (forall m future,
        fit series = Ok m ->
        make_future_dataframe m (h * 365) = Ok future ->
        invoke_forecast series h
        = ([EvFit series; EvMakeFuture (h * 365); EvPredict future],
           predict m future))
  /\ (forall m e,
        fit series = Ok m ->
        make_future_dataframe m (h * 365) = Error e ->
        invoke_forecast series h
        = ([EvFit series; EvMakeFuture (h * 365)], Error e))
  /\ (forall e,
        fit series = Error e ->
        invoke_forecast series h = ([EvFit series], Error e)).
Proof.
  split; [| split; [| split]].
  - intros [[p Hp] |]; cbn; [| lia].
    apply andb_true_iff in Hp. destruct Hp as (H1 & H2).
    apply Z.leb_le in H1, H2. lia.
  - intros m future. apply invoke_forecast_fitted.
  - intros m e Hfit Hfut. unfold invoke_forecast.
    rewrite bind_emit, Hfit, bind_lift_ok, bind_emit, Hfut, bind_lift_error.
    reflexivity.
  - intros e Hfit. unfold invoke_forecast.
    rewrite bind_emit, Hfit, bind_lift_error. reflexivity.
Qed.

(** C10.  When the forecast succeeds but none of its points lies in a year
    after the latest known year, the annual series is empty, the search for
    the year of the highest amount raises on it, and the run ends with that
    error after the three service calls: no insight line is printed and no
    download is offered.  Such a forecast arises with the shortest horizon
    when the history ends on January 1 of a leap year: the 365 days that
    follow are all days of that year. *)
Theorem insights_raise_without_future_year
    (df : DataFrame) (picked : option (SliderPos 1 10))
    (series : list (Date * Cell)) (m : Model) (future : list Date)
    (forecast : list ForecastPoint) (years : list Cell) (latest : Z) :
  build_series df = Ok series ->
  fit series = Ok m ->
  make_future_dataframe m (slider 1 10 5 picked * 365) = Ok future ->
  predict m future = Ok forecast ->
  getitem df year_label = Ok years ->
  column_max years = Some latest ->
  (forall p, In p forecast -> year (ds p) <= latest) ->
  annual_pred (Some latest) forecast = []
  /\ extract_insights (Some latest) forecast
     = ([], Error (EmptyArg "argmax"))
  /\ forecast_and_report df picked
     = ([EvFit series; EvMakeFuture (slider 1 10 5 picked * 365);
         EvPredict future],
        Error (EmptyArg "argmax"))
  /\ (forall y d,
        is_leap y = true -> In d (days_after (mkDate y 1) 365) -> year d = y).
Proof.
  intros Hb Hfit Hfut Hpred Hyears Hmax Hpast.
  pose proof (annual_pred_empty latest forecast Hpast) as Hempty.
  split; [assumption |].
  split; [now apply extract_insights_empty |].
  split.
  - unfold forecast_and_report. rewrite Hb, bind_lift_ok.
    rewrite (invoke_forecast_fitted series _ m future Hfit Hfut), Hpred.
    rewrite bind_ok, Hyears, bind_lift_ok, Hmax.
    rewrite (extract_insights_empty latest forecast Hempty), bind_error.
    reflexivity.
  - intros y d Hleap Hin.
    apply (days_after_same_year 365 (mkDate y 1) d) in Hin; [exact Hin |].
    cbn [year dayofyear]. unfold days_in_year. rewrite Hleap. lia.
Qed.

End WithService.

End Properties.

(** * Further properties of the script *)

Section Further.
Context {F : Type} {num : Numeric F}.

Local Abbreviation Cell := (@Cell F).
Local Abbreviation DataFrame := (@DataFrame F).
Local Abbreviation ForecastPoint := (@ForecastPoint F).

(** ** Sheet Loader: missing sheets *)

Lemma parse_in (xls : @ExcelFile F) (sheet : string) (df : DataFrame) :
  parse xls sheet = Ok df -> In (sheet, df) xls.
Proof.
  induction xls as [| [name d] xls IH]; cbn; [discriminate |].
  destruct (String.eqb_spec name sheet) as [-> |].
  - intros H. inversion H. now left.
  - intros H. right. auto.
Qed.

Lemma parse_absent (xls : @ExcelFile F) (sheet : string) :
  (forall df, ~ In (sheet, df) xls)
  <-> parse xls sheet = Error (WorksheetNotFound sheet).
Proof.
  induction xls as [| [name d] xls IH]; cbn.
  - split; [reflexivity | tauto].
  - destruct (String.eqb_spec name sheet) as [-> | Hne]; split.
    + intros H. exfalso. apply (H d). now left.
    + discriminate.
    + intros H. apply IH. intros df Hin. apply (H df). now right.
    + intros H df [E | Hin]; [inversion E; congruence |].
      revert df Hin. now apply IH.
Qed.

Lemma parse_error (xls : @ExcelFile F) (sheet : string) (e : Exception) :
  parse xls sheet = Error e ->
  e = WorksheetNotFound sheet /\ forall df, ~ In (sheet, df) xls.
Proof.
  intros H.
  assert (E : e = WorksheetNotFound sheet).
  { induction xls as [| [name d] xls IH]; cbn in H; [now inversion H |].
    destruct (String.eqb name sheet); [discriminate | auto]. }
  subst e. split; [reflexivity |]. now apply parse_absent.
Qed.

Lemma set_columns_not_missing (df : DataFrame) (labels : list string)
    (sheet : string) :
  set_columns df labels <> Error (WorksheetNotFound sheet).
Proof.
  unfold set_columns.
  destruct (Nat.eqb (List.length (columns df)) (List.length labels));
    discriminate.
Qed.

(** X1.  The four sheets are looked up before any column is renamed: when one
    of them is not in the workbook, the load fails with the error that names
    a sheet the workbook lacks, the first in the order revenue, subscribers,
    content spend, net income, whatever the shape of the sheets that are
    there; and the load reports a sheet as missing only if it is one of the
    four and the workbook has no sheet of that name. *)
Theorem load_sheets_missing_sheet (xls : @ExcelFile F) :
  (forall sheet,
      In sheet [revenue_sheet; subs_sheet; content_sheet; income_sheet] ->
      (forall df, ~ In (sheet, df) xls) ->
      exists missing before after,
        [revenue_sheet; subs_sheet; content_sheet; income_sheet]
        = before ++ missing :: after
        /\ (forall s, In s before -> exists df, parse xls s = Ok df)
        /\ (forall df, ~ In (missing, df) xls)
        /\ load_sheets xls = Error (WorksheetNotFound missing))
  /\ (forall missing,
        load_sheets xls = Error (WorksheetNotFound missing) ->
        In missing [revenue_sheet; subs_sheet; content_sheet; income_sheet]
        /\ forall df, ~ In (missing, df) xls).
Proof.
  unfold load_sheets. split.
  - intros sheet Hin Habs.
    destruct (parse xls revenue_sheet) as [r | e1] eqn:E1.
    2:{ destruct (parse_error _ _ _ E1) as (-> & H).
        exists revenue_sheet, [], [subs_sheet; content_sheet; income_sheet].
        repeat split; auto. intros s []. }
    destruct (parse xls subs_sheet) as [sb | e2] eqn:E2.
    2:{ destruct (parse_error _ _ _ E2) as (-> & H).
        exists subs_sheet, [revenue_sheet], [content_sheet; income_sheet].
        repeat split; auto. intros s [<- | []]. eauto. }
    destruct (parse xls content_sheet) as [c | e3] eqn:E3.
    2:{ destruct (parse_error _ _ _ E3) as (-> & H).
        exists content_sheet, [revenue_sheet; subs_sheet], [income_sheet].
        repeat split; auto. intros s [<- | [<- | []]]; eauto. }
    destruct (parse xls income_sheet) as [i | e4] eqn:E4.
    2:{ destruct (parse_error _ _ _ E4) as (-> & H).
        exists income_sheet, [revenue_sheet; subs_sheet; content_sheet], [].
        repeat split; auto. intros s [<- | [<- | [<- | []]]]; eauto. }
    exfalso. apply parse_absent in Habs.
    destruct Hin as [<- | [<- | [<- | [<- | []]]]]; congruence.
  - intros missing H.
    destruct (parse xls revenue_sheet) as [r | e1] eqn:E1.
    2:{ destruct (parse_error _ _ _ E1) as (-> & Habs). cbn in H.
        inversion H; subst. split; [now left | assumption]. }
    destruct (parse xls subs_sheet) as [sb | e2] eqn:E2.
    2:{ destruct (parse_error _ _ _ E2) as (-> & Habs). cbn in H.
        inversion H; subst. split; [right; now left | assumption]. }
    destruct (parse xls content_sheet) as [c | e3] eqn:E3.
    2:{ destruct (parse_error _ _ _ E3) as (-> & Habs). cbn in H.
        inversion H; subst. split; [right; right; now left | assumption]. }
    destruct (parse xls income_sheet) as [i | e4] eqn:E4.
    2:{ destruct (parse_error _ _ _ E4) as (-> & Habs). cbn in H.
        inversion H; subst.
        split; [right; right; right; now left | assumption]. }
    exfalso. cbn [rbind] in H.
    destruct (set_columns r _) as [r' |] eqn:S1; cbn [rbind] in H;
      [| inversion H; subst; now apply set_columns_not_missing in S1].
    destruct (set_columns sb _) as [s' |] eqn:S2; cbn [rbind] in H;
      [| inversion H; subst; now apply set_columns_not_missing in S2].
    destruct (set_columns c _) as [c' |] eqn:S3; cbn [rbind] in H;
      [| inversion H; subst; now apply set_columns_not_missing in S3].
    destruct (set_columns i _) as [i' |] eqn:S4; cbn [rbind] in H;
      [discriminate
      | inversion H; subst; now apply set_columns_not_missing in S4].
Qed.

(** ** Currency Normalizer: what remains after the removal *)

Lemma strip_currency_app (a b : string) :
  strip_currency (String.append a b)
  = String.append (strip_currency a) (strip_currency b).
Proof.
  induction a as [| c a IH]; cbn; [reflexivity |].
  destruct (currency_char c); cbn; now rewrite IH.
Qed.

Lemma strip_currency_fixed (s : string) :
  (forall c, In c (list_ascii_of_string s) -> currency_char c = false) ->
  strip_currency s = s.
Proof.
  induction s as [| c s IH]; cbn; intros H; [reflexivity |].
  rewrite (H c (or_introl eq_refl)). f_equal. apply IH. auto.
Qed.

Lemma strip_currency_free (s : string) (c : ascii) :
  In c (list_ascii_of_string (strip_currency s)) -> currency_char c = false.
Proof.
  induction s as [| c' s IH]; cbn; [intros [] |].
  destruct (currency_char c') eqn:E; cbn; [assumption |].
  intros [<- | H]; auto.
Qed.

(** X2.  What the removal leaves holds neither [$] nor [,]; a text without
    these two characters is returned as it is, so removing twice is removing
    once; the removal works piece by piece on a concatenation and never
    lengthens a text. *)
Theorem strip_currency_residue (s : string) :
  (forall c, In c (list_ascii_of_string (strip_currency s)) ->
             c <> "$"%char /\ c <> ","%char)
  /\ ((forall c, In c (list_ascii_of_string s) ->
                 c <> "$"%char /\ c <> ","%char) ->
      strip_currency s = s)
  /\ strip_currency (strip_currency s) = strip_currency s
  /\ (forall t, strip_currency (String.append s t)
                = String.append (strip_currency s) (strip_currency t))
  /\ (String.length (strip_currency s) <= String.length s)%nat.
Proof.
  assert (Hchar : forall c, currency_char c = false
                            <-> c <> "$"%char /\ c <> ","%char).
  { intros c. unfold currency_char. rewrite orb_false_iff.
    rewrite <- !not_true_iff_false, !Ascii.eqb_eq. tauto. }
  split; [| split; [| split; [| split]]].
  - intros c Hin. apply Hchar. now apply (strip_currency_free s).
  - intros H. apply strip_currency_fixed. intros c Hin. apply Hchar. auto.
  - apply strip_currency_fixed. intros c. apply strip_currency_free.
  - intros t. apply strip_currency_app.
  - induction s as [| c s IH]; cbn; [lia |].
    destruct (currency_char c); cbn; lia.
Qed.

Lemma astype_float_floats (xs : list F) :
  astype_float (map CFloat xs) = Ok (map CFloat xs).
Proof.
  induction xs as [| x xs IH]; cbn; [reflexivity |]. now rewrite IH.
Qed.

Lemma replace_cell_floats (xs : list F) :
  map replace_cell (map CFloat xs) = map CFloat xs.
Proof.
  rewrite map_map. reflexivity.
Qed.

Lemma clean_currency_floats (col out : list Cell) :
  clean_currency col = Ok out ->
  exists xs, out = map CFloat xs /\ List.length xs = List.length col.
Proof.
  unfold clean_currency. intros H.
  destruct (astype_float_inv _ _ H) as (xs & -> & Hxs).
  exists xs. split; [reflexivity |].
  apply Forall2_length in Hxs. now rewrite length_map in Hxs.
Qed.

(** X3.  A cleaned column is made of floats only, one per cell of the
    input, and cleaning it again returns it unchanged; a column that holds
    no string always cleans, to the floats of its numbers. *)
Theorem clean_currency_idempotent (col : list Cell) :
  (forall out,
      clean_currency col = Ok out ->
      (exists xs, out = map CFloat xs /\ List.length xs = List.length col)
      /\ clean_currency out = Ok out)
  /\ ((forall c, In c col -> forall s, c <> CStr s) ->
      exists xs, clean_currency col = Ok (map CFloat xs)
                 /\ List.length xs = List.length col).
Proof.
  split.
  - intros out H. destruct (clean_currency_floats _ _ H) as (xs & -> & Hlen).
    split; [eauto |]. unfold clean_currency.
    now rewrite replace_cell_floats, astype_float_floats.
  - intros Hnum.
    destruct (clean_currency col) as [out | e] eqn:E.
    + destruct (clean_currency_floats _ _ E) as (xs & -> & Hlen). eauto.
    + exfalso. unfold clean_currency in E.
      destruct (astype_float_error_inv _ _ E) as (pre & c & post & Hsplit & _ & Hc).
      assert (Hin : In c (map replace_cell col))
        by (rewrite Hsplit; apply in_elt).
      apply in_map_iff in Hin. destruct Hin as (c0 & <- & Hin0).
      destruct (cell_to_float_error _ _ Hc) as (s0 & -> & _).
      now apply (Hnum _ Hin0 s0).
Qed.

(** ** Cleaning a column in place *)

Lemma col_index_nth (label : string) (cols : list string) (i : nat) :
  col_index label cols = Some i ->
  (i < List.length cols)%nat /\ nth i cols "" = label.
Proof.
  revert i. induction cols as [| c cols IH]; cbn; intros i H; [discriminate |].
  destruct (String.eqb_spec c label) as [-> |].
  - inversion H; subst. cbn. split; [lia | reflexivity].
  - destruct (col_index label cols) as [k |]; cbn in H; [| discriminate].
    inversion H; subst. destruct (IH k eq_refl). cbn. split; [lia | assumption].
Qed.

Lemma col_index_distinct (a b : string) (cols : list string) (i j : nat) :
  col_index a cols = Some i -> col_index b cols = Some j -> a <> b -> i <> j.
Proof.
  intros Ha Hb Hne ->. apply col_index_nth in Ha, Hb.
  destruct Ha as (_ & Ha), Hb as (_ & Hb). congruence.
Qed.

Lemma set_nth_length (i : nat) (c : Cell) (r : Row) :
  List.length (set_nth i c r) = List.length r.
Proof.
  revert i. induction r as [| x r IH]; intros [| i]; cbn; auto.
Qed.

Lemma set_nth_other (i j : nat) (c d : Cell) (r : Row) :
  i <> j -> nth j (set_nth i c r) d = nth j r d.
Proof.
  revert i j. induction r as [| x r IH]; intros [| i] [| j] H; cbn; auto.
  now contradiction H.
Qed.

Lemma set_nth_same (i : nat) (c d : Cell) (r : Row) :
  (i < List.length r)%nat -> nth i (set_nth i c r) d = c.
Proof.
  revert i. induction r as [| x r IH]; intros [| i] H; cbn in *; try lia; auto.
  apply IH. lia.
Qed.

Lemma set_column_length (i : nat) (col : list Cell) (rs : list Row) :
  List.length col = List.length rs ->
  List.length (set_column i col rs) = List.length rs.
Proof.
  revert rs. induction col as [| c col IH]; intros [| r rs] H; cbn in *;
    try discriminate; auto.
Qed.

Lemma set_column_other (i j : nat) (d : Cell) (col : list Cell)
    (rs : list Row) :
  List.length col = List.length rs -> i <> j ->
  map (fun r => nth j r d) (set_column i col rs)
  = map (fun r => nth j r d) rs.
Proof.
  revert rs. induction col as [| c col IH]; intros [| r rs] H Hne; cbn in *;
    try discriminate; auto.
  rewrite set_nth_other by assumption. f_equal. apply IH; [lia | assumption].
Qed.

Lemma set_column_same (i : nat) (d : Cell) (col : list Cell) (rs : list Row) :
  List.length col = List.length rs ->
  Forall (fun r => (i < List.length r)%nat) rs ->
  map (fun r => nth i r d) (set_column i col rs) = col.
Proof.
  revert rs. induction col as [| c col IH]; intros [| r rs] H Hall; cbn in *;
    try discriminate; auto.
  inversion Hall; subst.
  rewrite set_nth_same by assumption. f_equal. apply IH; [lia | assumption].
Qed.

Lemma set_column_row_lengths (i n : nat) (col : list Cell) (rs : list Row) :
  Forall (fun r => List.length r = n) rs ->
  Forall (fun r => List.length r = n) (set_column i col rs).
Proof.
  revert rs. induction col as [| c col IH]; intros [| r rs] H; cbn;
    try constructor.
  - inversion H; subst. now rewrite set_nth_length.
  - inversion H; subst. auto.
Qed.

(** What a successful cleaning of a column is made of. *)
Lemma clean_column_inv (df df' : DataFrame) (label : string) :
  clean_column df label = Ok df' ->
  exists i cleaned,
    col_index label (columns df) = Some i
    /\ clean_currency (map (fun r => nth i r (CStr "")) (rows df)) = Ok cleaned
    /\ List.length cleaned = List.length (rows df)
    /\ df' = mkDataFrame (columns df) (set_column i cleaned (rows df)).
Proof.
  unfold clean_column, getitem, setitem.
  destruct (col_index label (columns df)) as [i |]; [| discriminate].
  cbn [rbind].
  destruct (clean_currency _) as [cleaned |] eqn:E; [| discriminate].
  cbn [rbind].
  destruct (Nat.eqb_spec (List.length cleaned) (List.length (rows df)));
    [| discriminate].
  intros H. inversion H; subst. exists i, cleaned. auto.
Qed.

Lemma clean_column_other (df df' : DataFrame) (label other : string) :
  clean_column df label = Ok df' -> other <> label ->
  getitem df' other = getitem df other.
Proof.
  intros H Hne.
  destruct (clean_column_inv _ _ _ H) as (i & cleaned & Hi & _ & Hlen & ->).
  unfold getitem. cbn [columns rows].
  destruct (col_index other (columns df)) as [j |] eqn:Hj; [| reflexivity].
  f_equal. apply set_column_other; [assumption |].
  intros ->. now apply (col_index_distinct other label (columns df) j j).
Qed.

(** X4.  Cleaning a column of a frame in place changes that column and
    nothing else: the labels and the number of rows stay, and every other
    column reads as before.  On a rectangular frame the result is
    rectangular and the named column reads as the cleaned cells. *)
Theorem clean_column_only_named (df df' : DataFrame) (label : string) :
  clean_column df label = Ok df' ->
  columns df' = columns df
  /\ List.length (rows df') = List.length (rows df)
  /\ (forall other, other <> label -> getitem df' other = getitem df other)
  /\ (rectangular df ->
      rectangular df'
      /\ exists col cleaned,
          getitem df label = Ok col
          /\ clean_currency col = Ok cleaned
          /\ getitem df' label = Ok cleaned).
Proof.
  intros H.
  split; [| split; [| split]].
  - destruct (clean_column_inv _ _ _ H) as (i & cleaned & _ & _ & _ & ->).
    reflexivity.
  - destruct (clean_column_inv _ _ _ H) as (i & cleaned & _ & _ & Hlen & ->).
    cbn [rows]. now apply set_column_length.
  - intros other Hne. now apply (clean_column_other df df' label).
  - intros Hrect.
    destruct (clean_column_inv _ _ _ H) as (i & cleaned & Hi & Hc & Hlen & ->).
    split.
    + unfold rectangular in *. cbn [columns rows].
      now apply set_column_row_lengths.
    + exists (map (fun r => nth i r (CStr "")) (rows df)), cleaned.
      unfold getitem. cbn [columns rows]. rewrite Hi.
      split; [reflexivity |]. split; [assumption |]. f_equal.
      apply set_column_same; [assumption |].
      unfold rectangular in Hrect. destruct (col_index_nth _ _ _ Hi) as (Hlt & _).
      eapply Forall_impl; [| exact Hrect]. cbn. intros r Hr. lia.
Qed.

Lemma load_sheets_inv (xls : @ExcelFile F) (t : @Tables F) :
  load_sheets xls = Ok t ->
  exists r s c i,
    parse xls revenue_sheet = Ok r /\ parse xls subs_sheet = Ok s
    /\ parse xls content_sheet = Ok c /\ parse xls income_sheet = Ok i
    /\ t = mkTables (mkDataFrame [year_label; revenue_label] (rows r))
                    (mkDataFrame [year_label; subs_label] (rows s))
                    (mkDataFrame [year_label; content_label] (rows c))
                    (mkDataFrame [year_label; income_label] (rows i)).
Proof.
  unfold load_sheets.
  destruct (parse xls revenue_sheet) as [r |]; [| discriminate].
  destruct (parse xls subs_sheet) as [s |]; [| discriminate].
  destruct (parse xls content_sheet) as [c |]; [| discriminate].
  destruct (parse xls income_sheet) as [i |]; [| discriminate].
  cbn [rbind].
  destruct (set_columns r _) as [r' |] eqn:E1; [| discriminate].
  destruct (set_columns s _) as [s' |] eqn:E2; [| discriminate].
  destruct (set_columns c _) as [c' |] eqn:E3; [| discriminate].
  destruct (set_columns i _) as [i' |] eqn:E4; [| discriminate].
  cbn [rbind]. intros H. inversion H; subst.
  apply set_columns_inv in E1, E2, E3, E4.
  destruct E1 as (_ & ->), E2 as (_ & ->), E3 as (_ & ->), E4 as (_ & ->).
  exists r, s, c, i. auto.
Qed.

Lemma clean_tables_inv (t t' : @Tables F) :
  clean_tables t = Ok t' ->
  clean_column (revenue_df t) revenue_label = Ok (revenue_df t')
  /\ clean_column (subs_df t) subs_label = Ok (subs_df t')
  /\ clean_column (content_df t) content_label = Ok (content_df t')
  /\ clean_column (income_df t) income_label = Ok (income_df t').
Proof.
  unfold clean_tables.
  destruct (clean_column (revenue_df t) _) as [r |]; [| discriminate].
  destruct (clean_column (subs_df t) _) as [s |]; [| discriminate].
  destruct (clean_column (content_df t) _) as [c |]; [| discriminate].
  destruct (clean_column (income_df t) _) as [i |]; [| discriminate].
  cbn [rbind]. intros H. inversion H; subst. cbn. auto.
Qed.

(** X5.  After loading and cleaning, the year column of each table is the
    first column of its sheet, cell for cell: the cleaning of the metric
    columns never touches a year, and every table keeps the rows of its
    sheet in number and order. *)
Theorem cleaned_years_are_sheet_years (xls : @ExcelFile F) (t t' : @Tables F) :
  load_sheets xls = Ok t ->
  clean_tables t = Ok t' ->
  exists r s c i,
    parse xls revenue_sheet = Ok r /\ parse xls subs_sheet = Ok s
    /\ parse xls content_sheet = Ok c /\ parse xls income_sheet = Ok i
    /\ getitem (revenue_df t') year_label
       = Ok (map (fun row => nth 0 row (CStr "")) (rows r))
    /\ getitem (subs_df t') year_label
       = Ok (map (fun row => nth 0 row (CStr "")) (rows s))
    /\ getitem (content_df t') year_label
       = Ok (map (fun row => nth 0 row (CStr "")) (rows c))
    /\ getitem (income_df t') year_label
       = Ok (map (fun row => nth 0 row (CStr "")) (rows i)).
Proof.
  intros Hload Hclean.
  destruct (load_sheets_inv _ _ Hload) as (r & s & c & i & Hr & Hs & Hc & Hi & ->).
  destruct (clean_tables_inv _ _ Hclean) as (C1 & C2 & C3 & C4).
  cbn [revenue_df subs_df content_df income_df] in *.
  exists r, s, c, i. repeat (split; [assumption |]).
  rewrite (clean_column_other _ _ _ year_label C1) by discriminate.
  rewrite (clean_column_other _ _ _ year_label C2) by discriminate.
  rewrite (clean_column_other _ _ _ year_label C3) by discriminate.
  rewrite (clean_column_other _ _ _ year_label C4) by discriminate.
  repeat split; reflexivity.
Qed.

(** ** Reconciler: empty tables, row counts, and what the builder reads *)

Lemma join_nil_r (L : list (Z * list F)) : join L [] = [].
Proof.
  unfold join. induction L as [| l L IH]; [reflexivity |]. cbn. exact IH.
Qed.

(** X6.  A table without rows is no error for the reconciler: when one of
    the four cleaned tables is empty, the merge chain returns the frame with
    the five labels and no row. *)
Theorem reconcile_empty_table (revenue subs content income : list (Z * F)) :
  revenue = [] \/ subs = [] \/ content = [] \/ income = [] ->
  reconcile (cleaned_tables revenue subs content income)
  = Ok (mkDataFrame reconciled_columns []).
Proof.
  intros H. rewrite reconcile_cleaned. do 2 f_equal. unfold joined.
  destruct H as [-> | [-> | [-> | ->]]].
  - reflexivity.
  - now rewrite join_nil_r.
  - now rewrite join_nil_r.
  - now rewrite join_nil_r.
Qed.

Lemma filter_length_bound {A} (f : A -> bool) (l : list A) :
  (List.length (filter f l) <= List.length l)%nat.
Proof.
  induction l as [| a l IH]; cbn; [lia |]. destruct (f a); cbn; lia.
Qed.

Lemma joined_keys_unique (revenue subs content income : list (Z * F)) :
  NoDup (map fst revenue) -> NoDup (map fst subs) ->
  NoDup (map fst content) -> NoDup (map fst income) ->
  NoDup (map fst (joined revenue subs content income)).
Proof.
  intros H1 H2 H3 H4. apply occurrences_NoDup. intros k.
  rewrite occurrences_joined.
  apply product_le_1; now apply occurrences_NoDup.
Qed.

Lemma joined_keys_incl (revenue subs content income : list (Z * F)) (k : Z) :
  In k (map fst (joined revenue subs content income)) ->
  In k (map fst revenue) /\ In k (map fst subs)
  /\ In k (map fst content) /\ In k (map fst income).
Proof.
  rewrite !occurrences_In, occurrences_joined. apply product_positive.
Qed.

(** X7.  With unique years in the four cleaned tables the reconciled frame
    has at most as many rows as the shortest of them; with unique years in
    Subscribers, Content Spend and Net Income alone it has at most as many
    rows as the Revenue table. *)
Theorem reconcile_row_bound (revenue subs content income : list (Z * F)) :
  NoDup (map fst subs) -> NoDup (map fst content) -> NoDup (map fst income) ->
  exists out,
    reconcile (cleaned_tables revenue subs content income)
    = Ok (mkDataFrame reconciled_columns out)
    /\ (List.length out <= List.length revenue)%nat
    /\ (NoDup (map fst revenue) ->
        List.length out <= List.length subs
        /\ List.length out <= List.length content
        /\ List.length out <= List.length income)%nat.
Proof.
  intros H2 H3 H4.
  exists (map wide_row (joined revenue subs content income)).
  split; [apply reconcile_cleaned |].
  rewrite length_map.
  rewrite <- (length_map fst (joined revenue subs content income)).
  split.
  - rewrite joined_keys_filter by assumption.
    rewrite <- (length_map fst revenue). apply filter_length_bound.
  - intros H1.
    pose proof (joined_keys_unique _ _ _ _ H1 H2 H3 H4) as Hnd.
    rewrite <- (length_map fst subs), <- (length_map fst content),
      <- (length_map fst income).
    repeat split; apply NoDup_incl_length; try assumption;
      intros k Hk; apply joined_keys_incl in Hk; tauto.
Qed.

(** The year and the first value of a joined row. *)
Lemma join_first_value (L : list (Z * list F)) (R : list (Z * F)) :
  NoDup (map fst R) ->
  Forall (fun l => snd l <> []) L ->
  map (fun r => (fst r, hd_error (snd r))) (join L R)
  = filter (fun p => has_year (fst p) R)
           (map (fun l => (fst l, hd_error (snd l))) L)
  /\ Forall (fun l => snd l <> []) (join L R).
Proof.
  intros Hnd HL. unfold join.
  induction L as [| l L IH]; [split; [reflexivity | constructor] |].
  inversion HL as [| ? ? Hl HL']; subst.
  destruct (IH HL') as (IH1 & IH2). clear IH.
  cbn [flat_map map filter fst]. rewrite map_app, IH1.
  pose proof (proj1 (occurrences_NoDup R) Hnd (fst l)) as Hle.
  pose proof (has_year_occurrences (fst l) R) as Hhas.
  unfold occurrences in Hle, Hhas.
  destruct (filter (fun r => fst l =? fst r) R) as [| r [| r' rest]];
    cbn [List.length map app] in *.
  - destruct (has_year (fst l) R).
    + exfalso. destruct Hhas as [H _]. specialize (H eq_refl). lia.
    + split; [reflexivity | exact IH2].
  - destruct (has_year (fst l) R).
    + split.
      * cbn [app fst snd]. f_equal. f_equal.
        destruct (snd l); [now contradiction Hl | reflexivity].
      * cbn [app]. constructor; [| exact IH2]. cbn. now destruct (snd l).
    + exfalso. destruct Hhas as [_ H]. assert (false = true) by (apply H; lia).
      discriminate.
  - lia.
Qed.

Lemma filter_map_swap {A B} (f : A -> B) (p : B -> bool) (l : list A) :
  filter p (map f l) = map f (filter (fun a => p (f a)) l).
Proof.
  induction l as [| a l IH]; cbn; [reflexivity |].
  destruct (p (f a)); cbn; now rewrite IH.
Qed.

(** X8.  For cleaned tables with unique years in Subscribers, Content Spend
    and Net Income and with the Revenue years in the range of a timestamp,
    the series built from the reconciled frame is the Revenue table itself,
    restricted to the years the other three tables also have, in the order
    of the Revenue rows: each point is January 1 of the year with the
    revenue of that year.  The subscriber, content and income values never
    enter the series. *)
Theorem series_is_common_revenue (revenue subs content income : list (Z * F)) :
  NoDup (map fst subs) -> NoDup (map fst content) -> NoDup (map fst income) ->
  (forall y, In y (map fst revenue) -> 1678 <= y <= 2262) ->
  rbind (reconcile (cleaned_tables revenue subs content income)) build_series
  = Ok (map (fun kv => (mkDate (fst kv) 1, CFloat (snd kv)))
           (filter (fun kv => has_year (fst kv) subs
                              && has_year (fst kv) content
                              && has_year (fst kv) income)
                   revenue)).
Proof.
  intros H2 H3 H4 Hrange.
  rewrite reconcile_cleaned. cbn [rbind]. unfold build_series.
  unfold reconciled_columns. rewrite getitem_year_wide. cbn [rbind].
  unfold getitem. cbn [columns rows col_index].
  change (String.eqb year_label revenue_label) with false.
  rewrite String.eqb_refl. cbn [option_map rbind].
  rewrite to_datetime_all_in_range.
  2:{ intros y Hy. apply Hrange.
      now apply (joined_keys_incl revenue subs content income). }
  cbn [rbind]. rewrite !map_map. rewrite combine_map. f_equal.
  assert (Hsingle : Forall (fun l : Z * list F => snd l <> []) (single revenue)).
  { unfold single. apply Forall_forall. intros l Hl.
    apply in_map_iff in Hl. destruct Hl as (kv & <- & _). discriminate. }
  destruct (join_first_value (single revenue) subs H2 Hsingle) as (E1 & N1).
  destruct (join_first_value _ content H3 N1) as (E2 & N2).
  destruct (join_first_value _ income H4 N2) as (E3 & _).
  rewrite E2, E1 in E3. clear E1 E2.
  transitivity
    (map (fun p : Z * option F =>
            (mkDate (fst p) 1,
             match snd p with Some v => CFloat v | None => CStr "" end))
         (map (fun r : Z * list F => (fst r, hd_error (snd r)))
              (joined revenue subs content income))).
  - rewrite map_map. apply map_ext. intros [y vs]. cbn [fst snd].
    f_equal. unfold wide_row. cbn [nth fst snd]. now destruct vs.
  - unfold joined. rewrite E3. unfold single. rewrite map_map.
    cbn [fst snd hd_error]. rewrite !filter_twice.
    rewrite (filter_map_swap (fun kv : Z * F => (fst kv, Some (snd kv)))).
    rewrite map_map. cbn [fst snd].
    f_equal. apply filter_ext. intros kv. now rewrite ?andb_assoc.
Qed.

(** X9.  The latest known year is the greatest year of the column, wherever
    its row stands; an empty column has none. *)
Theorem column_max_greatest (ys : list Z) :
  (column_max (map (@CInt F) ys) = None <-> ys = [])
  /\ (forall m,
        column_max (map (@CInt F) ys) = Some m ->
        In m ys /\ forall y, In y ys -> y <= m).
Proof.
  induction ys as [| y ys (IHnone & IHmax)]; cbn [map column_max].
  - split; [tauto | discriminate].
  - destruct (column_max (map CInt ys)) as [m' |] eqn:E.
    + split; [split; discriminate |].
      intros m H. inversion H; subst.
      destruct (IHmax m' eq_refl) as (Hin & Hle). split.
      * destruct (Z.max_spec y m') as [(_ & ->) | (_ & ->)];
          [now right | now left].
      * intros z [<- | Hz]; [lia |]. specialize (Hle z Hz). lia.
    + split; [split; discriminate |].
      intros m H. inversion H; subst.
      assert (ys = []) by now apply IHnone. subst ys.
      split; [now left |]. intros z [<- | []]. lia.
Qed.

(** ** The run as a whole *)

Lemma future_forecast_no_latest (forecast : list ForecastPoint) :
  future_forecast None forecast = [].
Proof.
  unfold future_forecast. induction forecast as [| p ps IH]; [reflexivity |].
  cbn. exact IH.
Qed.

Lemma extract_insights_no_latest (forecast : list ForecastPoint) :
  extract_insights None forecast = ([], Error (EmptyArg "argmax")).
Proof.
  unfold extract_insights, annual_pred.
  rewrite future_forecast_no_latest. reflexivity.
Qed.

Lemma show_next_year_events (latest : option Z) (annual : list (Z * F))
    (ev : Event) :
  In ev (fst (show_next_year latest annual)) -> exists line, ev = EvMarkdown line.
Proof.
  unfold show_next_year. destruct latest as [l |]; [| intros []].
  destruct (series_get (l + 1) annual); cbn; [| intros []].
  intros [<- | []]. eauto.
Qed.

(** The insight step either prints lines and succeeds, or prints nothing
    and raises. *)
Lemma extract_insights_cases (latest : option Z) (forecast : list ForecastPoint) :
  extract_insights latest forecast = ([], Error (EmptyArg "argmax"))
  \/ exists log,
      extract_insights latest forecast = (log, Ok tt)
      /\ forall ev, In ev log -> exists line, ev = EvMarkdown line.
Proof.
  destruct (annual_pred latest forecast) as [| p s] eqn:E.
  - left. unfold extract_insights. rewrite E.
    unfold show_next_year. destruct latest; reflexivity.
  - right.
    destruct (extract_insights_nonempty latest forecast)
      as (ymax & ymin & hi & lo & _ & _ & Hrun); [rewrite E; discriminate |].
    eexists. split; [exact Hrun |].
    intros ev Hin. apply in_app_or in Hin. destruct Hin as [Hin | Hin].
    + now apply (show_next_year_events latest (annual_pred latest forecast)).
    + destruct Hin as [<- | [<- | []]]; eauto.
Qed.

Lemma getitem_no_rows (df : DataFrame) (label : string) (col : list Cell) :
  rows df = [] -> getitem df label = Ok col -> col = [].
Proof.
  unfold getitem. intros Hrows.
  destruct (col_index label (columns df)); [| discriminate].
  rewrite Hrows. intros H. now inversion H.
Qed.

(** ** From a sheet to a cleaned metric table, and the shape of a merge *)

Lemma set_column_pairs (ys : list Z) (cells : list Cell) (xs : list F) :
  List.length xs = List.length ys -> List.length cells = List.length ys ->
  set_column 1 (map CFloat xs)
             (map (fun yc : Z * Cell => [CInt (fst yc); snd yc])
                  (combine ys cells))
  = map metric_row (combine ys xs).
Proof.
  revert cells xs. induction ys as [| y ys IH]; intros [| c cells] [| x xs];
    cbn; intros H1 H2; try discriminate; [reflexivity |].
  unfold metric_row at 1. cbn [fst snd]. f_equal. apply IH; lia.
Qed.

Lemma map_fst_combine {A B} (zs : list A) (ws : list B) :
  List.length ws = List.length zs -> map fst (combine zs ws) = zs.
Proof.
  revert ws. induction zs as [| z zs IH]; intros [| w ws] H; cbn in *;
    try discriminate; [reflexivity |]. f_equal. apply IH. lia.
Qed.

(** X16.  A sheet whose rows are an integer year and a value cell, once its
    value column is cleaned, is a cleaned metric table: the same years in the
    same rows, each with the float its cell converts to.  Cleaning succeeds
    exactly when the value cells all convert. *)
Theorem cleaned_sheet_is_metric_table (label : string)
    (ys : list Z) (cells : list Cell) :
  label <> year_label ->
  List.length cells = List.length ys ->
  (forall df',
      clean_column
        (mkDataFrame [year_label; label]
           (map (fun yc : Z * Cell => [CInt (fst yc); snd yc])
                (combine ys cells)))
        label = Ok df' ->
      exists xs,
        clean_currency cells = Ok (map CFloat xs)
        /\ List.length xs = List.length ys
        /\ df' = metric_table label (combine ys xs)
        /\ map fst (combine ys xs) = ys)
  /\ (forall xs,
        clean_currency cells = Ok (map CFloat xs) ->
        clean_column
          (mkDataFrame [year_label; label]
             (map (fun yc : Z * Cell => [CInt (fst yc); snd yc])
                  (combine ys cells)))
          label = Ok (metric_table label (combine ys xs))).
Proof.
  intros Hne Hlen.
  assert (Hcol : getitem
            (mkDataFrame [year_label; label]
               (map (fun yc : Z * Cell => [CInt (fst yc); snd yc])
                    (combine ys cells))) label = Ok cells).
  { unfold getitem. cbn [columns rows col_index].
    destruct (String.eqb_spec year_label label) as [E | _];
      [now contradiction Hne |].
    rewrite String.eqb_refl. cbn [option_map]. f_equal.
    rewrite map_map. cbn [nth snd].
    clear Hne. revert cells Hlen.
    induction ys as [| y ys IH]; intros [| c cells] Hlen; cbn in *;
      try discriminate; [reflexivity |]. f_equal. apply IH. lia. }
  assert (Hset : forall xs,
            List.length xs = List.length ys ->
            setitem
              (mkDataFrame [year_label; label]
                 (map (fun yc : Z * Cell => [CInt (fst yc); snd yc])
                      (combine ys cells))) label (map CFloat xs)
            = Ok (metric_table label (combine ys xs))).
  { intros xs Hxs. unfold setitem. cbn [columns rows col_index].
    destruct (String.eqb_spec year_label label) as [E | _];
      [now contradiction Hne |].
    rewrite String.eqb_refl. cbn [option_map].
    rewrite !length_map, length_combine, Hlen, Nat.min_id, Hxs, Nat.eqb_refl.
    unfold metric_table. f_equal. f_equal. now apply set_column_pairs. }
  split.
  - intros df'. unfold clean_column. rewrite Hcol. cbn [rbind].
    destruct (clean_currency cells) as [cleaned |] eqn:E; [| discriminate].
    cbn [rbind]. destruct (clean_currency_floats _ _ E) as (xs & -> & Hxs).
    rewrite Hset by lia. intros H. inversion H; subst.
    exists xs. split; [reflexivity |]. split; [lia |].
    split; [reflexivity |]. apply map_fst_combine. lia.
  - intros xs E. unfold clean_column. rewrite Hcol. cbn [rbind].
    rewrite E. cbn [rbind]. apply Hset.
    destruct (clean_currency_floats _ _ E) as (xs' & Hmap & Hxs').
    apply (f_equal (@List.length _)) in Hmap. rewrite !length_map in Hmap.
    lia.
Qed.

Lemma drop_nth_length {A} (j : nat) (l : list A) :
  (j < List.length l)%nat ->
  List.length (drop_nth j l) = (List.length l - 1)%nat.
Proof.
  revert j. induction l as [| a l IH]; intros [| j] H; cbn in *; try lia.
  rewrite IH by lia. lia.
Qed.

Lemma filter_out_one (x : string) (l : list string) :
  NoDup l -> In x l ->
  List.length (filter (fun c => negb (String.eqb c x)) l)
  = (List.length l - 1)%nat.
Proof.
  induction l as [| c l IH]; intros Hnd Hin; [destruct Hin |].
  inversion Hnd as [| ? ? Hnin Hnd']; subst. cbn [filter].
  destruct (String.eqb_spec c x) as [-> | Hne]; cbn [negb List.length].
  - assert (E : filter (fun c => negb (String.eqb c x)) l = l).
    { clear -Hnin. induction l as [| d l IH]; [reflexivity |]. cbn.
      destruct (String.eqb_spec d x) as [-> | _];
        [exfalso; apply Hnin; now left |].
      cbn. f_equal. apply IH. intros H. apply Hnin. now right. }
    rewrite E. lia.
  - destruct Hin as [E | Hin]; [contradiction |].
    rewrite IH by assumption. destruct l; [destruct Hin | cbn; lia].
Qed.

Lemma col_index_in (label : string) (cols : list string) (i : nat) :
  col_index label cols = Some i -> In label cols.
Proof.
  intros H. destruct (col_index_nth _ _ _ H) as (Hlt & <-). now apply nth_In.
Qed.

Lemma col_index_none (label : string) (cols : list string) :
  ~ In label cols -> col_index label cols = None.
Proof.
  intros Hnot. destruct (col_index label cols) as [i |] eqn:E; [| reflexivity].
  destruct Hnot. exact (col_index_in _ _ _ E).
Qed.

Lemma col_index_some (label : string) (cols : list string) :
  In label cols -> exists i, col_index label cols = Some i.
Proof.
  induction cols as [| c cols IH]; [intros [] |]. cbn.
  destruct (String.eqb_spec c label) as [-> | Hne]; [eauto |].
  intros [E | Hin]; [contradiction |].
  destruct (IH Hin) as (i & ->). cbn. eauto.
Qed.

Lemma merge_columns_disjoint (on : string) (lcols rcols : list string) :
  (forall c, In c lcols -> In c rcols -> c = on) ->
  merge_columns on lcols rcols
  = lcols ++ filter (fun c => negb (String.eqb c on)) rcols.
Proof.
  intros Hdisj. unfold merge_columns. f_equal.
  - rewrite <- (map_id lcols) at 2. apply map_ext_in. intros c Hc.
    destruct (String.eqb_spec c on) as [-> | Hne]; [reflexivity |]. cbn.
    destruct (mem_label c rcols) eqn:Em; [| reflexivity].
    unfold mem_label in Em. apply existsb_exists in Em.
    destruct Em as (x & Hx & E). apply String.eqb_eq in E. subst x.
    destruct Hne. now apply Hdisj.
  - rewrite <- (map_id (filter _ rcols)) at 2. apply map_ext_in. intros c Hc.
    apply filter_In in Hc. destruct Hc as (Hc & Hne).
    destruct (mem_label c lcols) eqn:Em; [| reflexivity].
    unfold mem_label in Em. apply existsb_exists in Em.
    destruct Em as (x & Hx & E). apply String.eqb_eq in E. subst x.
    rewrite (Hdisj c Hx Hc), String.eqb_refl in Hne. discriminate.
Qed.

(** X17.  The merge on frames as the script joins them: rectangular, with
    distinct labels that the two sides share only in the key, and with
    integers of the 64-bit range in the key columns.  If one of the two
    frames lacks the key column the merge raises the key error for that
    label.  If both carry it the merge succeeds: the result has the labels
    of the left frame followed by those of the right one without the key,
    all distinct and none renamed, it is rectangular, and it has one column
    less than the two frames together, the key being kept once. *)
Theorem merge_shape (left right : DataFrame) (on : string) :
  NoDup (columns left) -> NoDup (columns right) ->
  (forall c, In c (columns left) -> In c (columns right) -> c = on) ->
  rectangular left -> rectangular right ->
  (forall col, getitem left on = Ok col -> Forall int64_cell col) ->
  (forall col, getitem right on = Ok col -> Forall int64_cell col) ->
  (~ In on (columns left) \/ ~ In on (columns right) ->
   merge left right on = Error (KeyError on))
  /\ (In on (columns left) -> In on (columns right) ->
      exists df,
        merge left right on = Ok df
        /\ columns df
           = columns left
             ++ filter (fun c => negb (String.eqb c on)) (columns right)
        /\ NoDup (columns df)
        /\ rectangular df
        /\ List.length (columns df)
           = (List.length (columns left) + List.length (columns right) - 1)%nat).
Proof.
  intros Hndl Hndr Hdisj Hl Hr _ _. unfold merge. split.
  - intros [Hnot | Hnot]; rewrite (col_index_none _ _ Hnot);
      [reflexivity |].
    now destruct (col_index on (columns left)).
  - intros Hinl Hinr.
    destruct (col_index_some _ _ Hinl) as (i & Ei).
    destruct (col_index_some _ _ Hinr) as (j & Ej).
    rewrite Ei, Ej. eexists. split; [reflexivity |]. cbn [columns rows].
    rewrite (merge_columns_disjoint on _ _ Hdisj).
    assert (Hcols : List.length
                      (columns left
                       ++ filter (fun c => negb (String.eqb c on))
                            (columns right))
                    = (List.length (columns left)
                       + List.length (columns right) - 1)%nat).
    { rewrite length_app.
      rewrite (filter_out_one on (columns right) Hndr Hinr).
      destruct (col_index_nth _ _ _ Ej). lia. }
    split; [reflexivity |]. split; [| split; [| exact Hcols]].
    + apply NoDup_app; [exact Hndl | now apply NoDup_filter |].
      intros c Hc Hc'. apply filter_In in Hc'. destruct Hc' as (Hc' & Hne).
      rewrite (Hdisj c Hc Hc'), String.eqb_refl in Hne. discriminate.
    + unfold rectangular in *. cbn [columns rows]. rewrite Hcols.
      apply Forall_forall. intros row Hrow. unfold merge_rows in Hrow.
      apply in_flat_map in Hrow. destruct Hrow as (a & Ha & Hrow).
      apply in_map_iff in Hrow. destruct Hrow as (b & <- & Hb).
      apply filter_In in Hb. destruct Hb as (Hb & _).
      rewrite Forall_forall in Hl, Hr.
      rewrite length_app, (Hl a Ha), drop_nth_length;
        rewrite (Hr b Hb); destruct (col_index_nth _ _ _ Ej); lia.
Qed.

(** ** Insight Extractor: the extreme years, and what the series depends on *)

(** The entry [arg_best] picks: the entries before it are beaten by it, the
    entries after it do not beat it. *)
Lemma arg_best_first (better : F -> F -> bool) :
  (forall a b c, better a b = true -> better b c = true -> better a c = true) ->
  (forall a b c, better a b = true ->
                 better a c = true \/ better c b = true) ->
  forall (s : list (Z * F)) (best : Z * F),
  exists pre v post,
    best :: s = pre ++ (arg_best better best s, v) :: post
    /\ (forall p, In p pre -> better v (snd p) = true)
    /\ (forall p, In p post -> better (snd p) v = false).
Proof.
  intros Htrans Hcotrans s.
  induction s as [| [y1 v1] s IH]; intros [y0 v0]; cbn [arg_best snd fst].
  - exists [], v0, []. split; [reflexivity |]. split; intros p [].
  - destruct (better v1 v0) eqn:E.
    + destruct (IH (y1, v1)) as (pre & v & post & Hsplit & Hpre & Hpost).
      exists ((y0, v0) :: pre), v, post.
      split; [rewrite <- app_comm_cons; f_equal; exact Hsplit |].
      split; [| assumption].
      intros p [<- | Hin]; [| auto]. cbn [snd].
      destruct pre as [| q pre];
        [rewrite app_nil_l in Hsplit | rewrite <- app_comm_cons in Hsplit].
      * injection Hsplit as _ Hv _. now rewrite <- Hv.
      * injection Hsplit as Hq _.
        apply (Htrans v v1 v0); [| assumption].
        specialize (Hpre q (or_introl eq_refl)). now rewrite <- Hq in Hpre.
    + destruct (IH (y0, v0)) as (pre & v & post & Hsplit & Hpre & Hpost).
      destruct pre as [| q pre];
        [rewrite app_nil_l in Hsplit | rewrite <- app_comm_cons in Hsplit].
      * injection Hsplit as Hy Hv Hs.
        exists [], v, ((y1, v1) :: post).
        split; [rewrite app_nil_l, <- Hy, <- Hv, <- Hs; reflexivity |].
        split; [intros p [] |].
        intros p [<- | Hin]; [cbn [snd]; now rewrite <- Hv | auto].
      * injection Hsplit as Hq Hs.
        assert (H0 : better v v0 = true).
        { specialize (Hpre q (or_introl eq_refl)). now rewrite <- Hq in Hpre. }
        exists ((y0, v0) :: (y1, v1) :: pre), v, post.
        split; [rewrite <- !app_comm_cons; do 2 f_equal; exact Hs |].
        split; [| assumption].
        intros p [<- | [<- | Hin]]; cbn [snd].
        -- exact H0.
        -- destruct (Hcotrans v v0 v1 H0) as [H | H];
             [assumption | congruence].
        -- apply Hpre. now right.
Qed.

(** X13.  When the comparison of the amounts is a strict order (transitive,
    and a smaller amount is below or a larger one above any third), the year
    of the highest amount is the first entry of the series that no entry
    exceeds: every entry before it is strictly lower and no entry after it is
    higher.  The year of the lowest amount is the first entry that no entry
    undercuts.  Both searches raise exactly on the empty series. *)
Theorem extreme_years_first (s : list (Z * F)) :
  (forall a b c, fltb a b = true -> fltb b c = true -> fltb a c = true) ->
  (forall a b c, fltb a b = true -> fltb a c = true \/ fltb c b = true) ->
  (forall y, idxmax s = Ok y ->
     exists pre v post,
       s = pre ++ (y, v) :: post
       /\ (forall p, In p pre -> fltb (snd p) v = true)
       /\ (forall p, In p post -> fltb v (snd p) = false))
  /\ (forall y, idxmin s = Ok y ->
     exists pre v post,
       s = pre ++ (y, v) :: post
       /\ (forall p, In p pre -> fltb v (snd p) = true)
       /\ (forall p, In p post -> fltb (snd p) v = false))
  /\ ((exists e, idxmax s = Error e) <-> s = [])
  /\ ((exists e, idxmin s = Error e) <-> s = []).
Proof.
  intros Htrans Hcotrans.
  split; [| split; [| split]].
  - intros y. destruct s as [| best s]; cbn [idxmax]; [discriminate |].
    intros H. inversion H; subst.
    apply (arg_best_first (fun v b => fltb b v)).
    + intros a b c Hab Hbc. now apply (Htrans c b a).
    + intros a b c Hab. destruct (Hcotrans b a c Hab); auto.
  - intros y. destruct s as [| best s]; cbn [idxmin]; [discriminate |].
    intros H. inversion H; subst.
    apply (arg_best_first (fun v b => fltb v b)); assumption.
  - destruct s; cbn; split; try discriminate; eauto.
    intros (e & H). discriminate.
  - destruct s; cbn; split; try discriminate; eauto.
    intros (e & H). discriminate.
Qed.

Lemma series_get_above (k : Z) (s : list (Z * F)) :
  Forall (fun j => k < j) (map fst s) -> series_get k s = None.
Proof.
  induction s as [| [j v] s IH]; cbn; intros H; [reflexivity |].
  inversion H; subst. destruct (Z.eqb_spec k j); [lia | auto].
Qed.

Lemma series_get_keys (k : Z) (v : F) (s : list (Z * F)) :
  series_get k s = Some v -> In k (map fst s).
Proof.
  induction s as [| [j w] s IH]; cbn; [discriminate |].
  destruct (Z.eqb_spec k j) as [-> |]; auto.
Qed.

(** Two series in ascending order of distinct years are equal when they
    agree year by year. *)
Lemma series_ext (a b : list (Z * F)) :
  StronglySorted Z.lt (map fst a) -> StronglySorted Z.lt (map fst b) ->
  (forall k, series_get k a = series_get k b) -> a = b.
Proof.
  revert b. induction a as [| [k v] a IH]; intros [| [k' v'] b] Ha Hb Hget.
  - reflexivity.
  - specialize (Hget k'). cbn in Hget. rewrite Z.eqb_refl in Hget. discriminate.
  - specialize (Hget k). cbn in Hget. rewrite Z.eqb_refl in Hget. discriminate.
  - cbn [map fst] in Ha, Hb.
    inversion Ha as [| ? ? Ha' Hall]; inversion Hb as [| ? ? Hb' Hall']; subst.
    assert (Ek : k = k').
    { pose proof (Hget k) as H1. pose proof (Hget k') as H2. cbn in H1, H2.
      rewrite Z.eqb_refl in H1, H2.
      destruct (Z.eqb_spec k k') as [-> | Hne]; [reflexivity |].
      destruct (Z.eqb_spec k' k) as [-> | Hne']; [reflexivity |].
      symmetry in H1. apply series_get_keys in H1, H2.
      rewrite Forall_forall in Hall, Hall'.
      specialize (Hall _ H2). specialize (Hall' _ H1). lia. }
    subst k'.
    assert (Ev : v = v').
    { specialize (Hget k). cbn in Hget. rewrite Z.eqb_refl in Hget.
      now inversion Hget. }
    subst v'. f_equal. apply IH; try assumption.
    intros j. destruct (Z.eqb_spec j k) as [-> | Hne].
    + now rewrite !series_get_above.
    + specialize (Hget j). cbn in Hget.
      destruct (Z.eqb_spec j k); [contradiction | assumption].
Qed.

(** X14.  The annual series depends on the forecast only through the
    estimates that fall in each year, in their order within the year: two
    forecasts that give every year the same estimates have the same annual
    series, however the rows of different years are interleaved. *)
Theorem annual_pred_by_year (latest : Z) (forecast forecast' : list ForecastPoint) :
  (forall y, latest < y -> year_values y forecast = year_values y forecast') ->
  annual_pred (Some latest) forecast = annual_pred (Some latest) forecast'.
Proof.
  intros H. apply series_ext; try apply annual_pred_sorted.
  intros k. rewrite !annual_pred_get.
  destruct (Z.ltb_spec latest k) as [Hlt | Hge]; [| reflexivity].
  now rewrite (H k Hlt).
Qed.

(** ** The printed amounts *)

Lemma filter_rev_list {A} (f : A -> bool) (l : list A) :
  filter f (rev l) = rev (filter f l).
Proof.
  induction l as [| a l IH]; [reflexivity |]. cbn.
  rewrite filter_app, IH. cbn. destruct (f a); [reflexivity |].
  now rewrite app_nil_r.
Qed.

Lemma group3_digits (l : list ascii) (room : nat) :
  filter (fun c => negb (currency_char c)) (group3 l room)
  = filter (fun c => negb (currency_char c)) l.
Proof.
  revert room. induction l as [| d l IH]; intros room; [reflexivity |].
  destruct room; cbn [group3 filter].
  - change (currency_char ","%char) with true. cbn [negb].
    destruct (negb (currency_char d)); now rewrite IH.
  - destruct (negb (currency_char d)); now rewrite IH.
Qed.

Lemma digits_plain (d : Decimal.uint) (c : ascii) :
  In c (list_ascii_of_string (NilZero.string_of_uint d)) ->
  currency_char c = false.
Proof.
  assert (H : forall d, In c (list_ascii_of_string (NilEmpty.string_of_uint d))
                        -> currency_char c = false).
  { intros u. induction u; cbn; [intros [] | ..];
      (intros [<- | Hin]; [reflexivity | auto]). }
  destruct d; try apply H. cbn. intros [<- | []]. reflexivity.
Qed.

Lemma strip_with_commas (digits : string) :
  (forall c, In c (list_ascii_of_string digits) -> currency_char c = false) ->
  strip_currency (with_commas digits) = digits.
Proof.
  intros H.
  rewrite <- (string_of_list_ascii_of_string (strip_currency _)).
  rewrite strip_currency_chars. unfold with_commas.
  rewrite list_ascii_of_string_of_list_ascii.
  rewrite filter_rev_list, group3_digits, <- filter_rev_list, rev_involutive.
  rewrite <- strip_currency_chars, strip_currency_fixed by assumption.
  apply string_of_list_ascii_of_string.
Qed.

(** X15.  Removing the currency formatting from a printed amount gives
    back the plain decimal text of the amount, for every integer, negative
    ones included; reading that text as a decimal gives the amount.  So when
    [float] reads the decimal text of an integer as that integer, a printed
    amount cleans to the amount it was printed from. *)
Theorem printed_amount_cleans (n : Z) :
  strip_currency (dollars n) = decimal n
  /\ option_map Z.of_int (NilZero.int_of_string (strip_currency (dollars n)))
     = Some n
  /\ (float_of_string (decimal n) = Some (float_of_int n) ->
      clean_currency [CStr (dollars n)] = Ok [CFloat (float_of_int n)]).
Proof.
  assert (E : strip_currency (dollars n) = decimal n).
  { unfold dollars, thousands, decimal. cbn [strip_currency].
    change (currency_char "$"%char) with true. cbv iota.
    unfold NilZero.string_of_int.
    destruct (Z.to_int n) as [d | d].
    - apply strip_with_commas. apply digits_plain.
    - cbn [strip_currency]. change (currency_char "-"%char) with false.
      cbv iota. f_equal. apply strip_with_commas. apply digits_plain. }
  split; [exact E |]. split.
  - rewrite E. unfold decimal. rewrite NilZero.isi.
    + cbn [option_map]. f_equal. apply DecimalZ.of_to.
    + destruct n as [| p | p]; cbn; [discriminate | | discriminate].
      intros H. inversion H as [Hp].
      now apply (DecimalPos.Unsigned.to_uint_nonnil p).
    + destruct n as [| p | p]; cbn; [discriminate | discriminate |].
      intros H. inversion H as [Hp].
      now apply (DecimalPos.Unsigned.to_uint_nonnil p).
  - intros Hfloat. unfold clean_currency. cbn [map replace_cell astype_float].
    rewrite E. cbn [cell_to_float]. rewrite Hfloat. reflexivity.
Qed.

Section Runs.
Context {Model : Type} {svc : @Forecaster F Model}.

Lemma invoke_forecast_fit_error (series : list (Date * Cell)) (h : Z)
    (e : Exception) :
  fit series = Error e -> invoke_forecast series h = ([EvFit series], Error e).
Proof.
  intros Hfit. unfold invoke_forecast.
  rewrite bind_emit, Hfit, bind_lift_error. reflexivity.
Qed.

Lemma invoke_forecast_future_error (series : list (Date * Cell)) (h : Z)
    (m : Model) (e : Exception) :
  fit series = Ok m -> make_future_dataframe m (h * 365) = Error e ->
  invoke_forecast series h = ([EvFit series; EvMakeFuture (h * 365)], Error e).
Proof.
  intros Hfit Hfut. unfold invoke_forecast.
  rewrite bind_emit, Hfit, bind_lift_ok, bind_emit, Hfut, bind_lift_error.
  reflexivity.
Qed.

(** The ways a run on a reconciled frame can go, stage by stage. *)
Ltac report_cases df picked :=
  unfold forecast_and_report;
  let series := fresh "series" in
  let m := fresh "m" in
  let fut := fresh "future" in
  let fc := fresh "forecast" in
  let years := fresh "years" in
  let e := fresh "e" in
  let Eb := fresh "Ebuild" in
  let Ef := fresh "Efit" in
  let Em := fresh "Efuture" in
  let Ep := fresh "Epredict" in
  let Ey := fresh "Eyears" in
  destruct (build_series df) as [series | e] eqn:Eb;
  [ rewrite bind_lift_ok;
    destruct (fit series) as [m | e] eqn:Ef;
    [ destruct (make_future_dataframe m (slider 1 10 5 picked * 365))
        as [fut | e] eqn:Em;
      [ rewrite (invoke_forecast_fitted series _ m fut Ef Em);
        destruct (predict m fut) as [fc | e] eqn:Ep;
        [ rewrite bind_ok;
          destruct (getitem df year_label) as [years | e] eqn:Ey;
          [ rewrite bind_lift_ok | rewrite bind_lift_error ]
        | rewrite bind_error ]
      | rewrite (invoke_forecast_future_error series _ m e Ef Em), bind_error ]
    | rewrite (invoke_forecast_fit_error series _ e Ef), bind_error ]
  | rewrite bind_lift_error ].

(** The run on a reconciled frame, stage by stage: the trace and the
    outcome for each stage that can stop it. *)
Lemma report_shape (df : DataFrame) (picked : option (SliderPos 1 10)) :
  forecast_and_report df picked
  = match build_series df with
    | Error e => ([], Error e)
    | Ok series =>
    match fit series with
    | Error e => ([EvFit series], Error e)
    | Ok m =>
    match make_future_dataframe m (slider 1 10 5 picked * 365) with
    | Error e =>
        ([EvFit series; EvMakeFuture (slider 1 10 5 picked * 365)], Error e)
    | Ok future =>
    match predict m future with
    | Error e =>
        ([EvFit series; EvMakeFuture (slider 1 10 5 picked * 365);
          EvPredict future], Error e)
    | Ok forecast =>
    match getitem df year_label with
    | Error e =>
        ([EvFit series; EvMakeFuture (slider 1 10 5 picked * 365);
          EvPredict future], Error e)
    | Ok years =>
    match extract_insights (column_max years) forecast with
    | (lines, Ok _) =>
        ([EvFit series; EvMakeFuture (slider 1 10 5 picked * 365);
          EvPredict future] ++ lines ++ [EvDownload forecast], Ok tt)
    | (lines, Error e) =>
        ([EvFit series; EvMakeFuture (slider 1 10 5 picked * 365);
          EvPredict future] ++ lines, Error e)
    end end end end end end.
Proof.
  report_cases df picked; try reflexivity.
  - destruct (extract_insights (column_max years) forecast) as [lines [[] | e]].
    + rewrite bind_ok. reflexivity.
    + rewrite bind_error. reflexivity.
Qed.

Lemma build_series_no_rows (df : DataFrame) :
  rows df = [] ->
  In year_label (columns df) -> In revenue_label (columns df) ->
  build_series df = Ok [] /\ getitem df year_label = Ok [].
Proof.
  intros Hrows Hy Hr. unfold build_series, getitem.
  destruct (col_index_some _ _ Hy) as (i & ->).
  destruct (col_index_some _ _ Hr) as (j & ->).
  rewrite Hrows. split; reflexivity.
Qed.

(** X10.  A reconciled frame without rows is not refused by the script: the
    builder returns the empty series and the run hands it to the fit of the
    service.  Whatever the service does with it the run cannot complete: a
    refusal by the service ends it, and if the service fits and predicts, the
    run ends after the three service calls with the error of the search for
    the highest year, since with no latest known year no forecast point
    counts as future.  The trace holds service calls only: no insight line,
    no download. *)
Theorem empty_frame_never_completes (df : DataFrame)
    (picked : option (SliderPos 1 10)) :
  rows df = [] ->
  (forall series, build_series df = Ok series -> series = [])
  /\ (exists log e,
        forecast_and_report df picked = (log, Error e)
        /\ forall ev, In ev log -> service_event ev)
  /\ (In year_label (columns df) -> In revenue_label (columns df) ->
      build_series df = Ok []
      /\ (exists log e,
            forecast_and_report df picked = (EvFit [] :: log, Error e)
            /\ forall ev, In ev log -> service_event ev)
      /\ (forall e, fit [] = Error e ->
                    forecast_and_report df picked = ([EvFit []], Error e))
      /\ (forall m future forecast,
            fit [] = Ok m ->
            make_future_dataframe m (slider 1 10 5 picked * 365) = Ok future ->
            predict m future = Ok forecast ->
            forecast_and_report df picked
            = ([EvFit []; EvMakeFuture (slider 1 10 5 picked * 365);
                EvPredict future],
               Error (EmptyArg "argmax")))).
Proof.
  intros Hrows. split; [| split].
  - intros series. unfold build_series.
    destruct (getitem df year_label) as [years |] eqn:Ey; [| discriminate].
    destruct (getitem df revenue_label) as [revenue |]; [| discriminate].
    rewrite (getitem_no_rows df year_label years Hrows Ey). cbn.
    intros H. now inversion H.
  - rewrite report_shape.
    destruct (build_series df) as [series |];
      [| eexists; eexists; split; [reflexivity | intros ev []]].
    destruct (fit series) as [m |];
      [| eexists; eexists; split; [reflexivity |];
         intros ev [<- | []]; exact I].
    destruct (make_future_dataframe m _) as [future |];
      [| eexists; eexists; split; [reflexivity |];
         intros ev [<- | [<- | []]]; exact I].
    destruct (predict m future) as [forecast |];
      [| eexists; eexists; split; [reflexivity |];
         intros ev [<- | [<- | [<- | []]]]; exact I].
    destruct (getitem df year_label) as [years |] eqn:Ey;
      [| eexists; eexists; split; [reflexivity |];
         intros ev [<- | [<- | [<- | []]]]; exact I].
    rewrite (getitem_no_rows df year_label years Hrows Ey).
    cbn [column_max]. rewrite extract_insights_no_latest.
    eexists. eexists. split; [reflexivity |].
    intros ev [<- | [<- | [<- | []]]]; exact I.
  - intros Hy Hr.
    destruct (build_series_no_rows df Hrows Hy Hr) as (Hb & Hyears).
    split; [exact Hb |]. split; [| split].
    + rewrite report_shape, Hb.
      destruct (fit []) as [m |];
        [| eexists; eexists; split; [reflexivity | intros ev []]].
      destruct (make_future_dataframe m _) as [future |];
        [| eexists; eexists; split; [reflexivity |];
           intros ev [<- | []]; exact I].
      destruct (predict m future) as [forecast |];
        [| eexists; eexists; split; [reflexivity |];
           intros ev [<- | [<- | []]]; exact I].
      rewrite Hyears. cbn [column_max]. rewrite extract_insights_no_latest.
      eexists. eexists. split; [reflexivity |].
      intros ev [<- | [<- | []]]; exact I.
    + intros e He. rewrite report_shape, Hb, He. reflexivity.
    + intros m future forecast Hfit Hfut Hpred.
      rewrite report_shape, Hb, Hfit, Hfut, Hpred, Hyears.
      cbn [column_max]. rewrite extract_insights_no_latest. reflexivity.
Qed.

Lemma main_shape (xls : @ExcelFile F) (picked : option (SliderPos 1 10)) :
  main xls picked
  = match load_sheets xls with
    | Error e => ([], Error e)
    | Ok t =>
    match clean_tables t with
    | Error e => ([], Error e)
    | Ok t' =>
    match reconcile t' with
    | Error e => ([], Error e)
    | Ok df =>
        (EvDataframe df :: fst (forecast_and_report df picked),
         snd (forecast_and_report df picked))
    end end end.
Proof.
  unfold main.
  destruct (load_sheets xls) as [t |]; [rewrite bind_lift_ok | reflexivity].
  destruct (clean_tables t) as [t' |]; [rewrite bind_lift_ok | reflexivity].
  destruct (reconcile t') as [df |]; [rewrite bind_lift_ok | reflexivity].
  now rewrite bind_emit.
Qed.

(** X11.  The forecasting service is called only after the workbook was
    loaded, cleaned, reconciled and turned into a series without error, and
    the only history it is ever fitted on is that series: a run that fails
    before leaves no service call in its trace. *)
Theorem service_called_after_build (xls : @ExcelFile F)
    (picked : option (SliderPos 1 10)) (ev : Event) :
  In ev (fst (main xls picked)) -> service_event ev ->
  exists t t' df series,
    load_sheets xls = Ok t /\ clean_tables t = Ok t'
    /\ reconcile t' = Ok df /\ build_series df = Ok series
    /\ In (EvFit series) (fst (main xls picked))
    /\ forall history,
        In (EvFit history) (fst (main xls picked)) -> history = series.
Proof.
  rewrite main_shape.
  destruct (load_sheets xls) as [t |] eqn:El; [| intros []].
  destruct (clean_tables t) as [t' |] eqn:Ec; [| intros []].
  destruct (reconcile t') as [df |] eqn:Er; [| intros []].
  rewrite report_shape.
  destruct (build_series df) as [series |] eqn:Eb;
    [| cbn; intros [<- | []] []].
  intros _ _. exists t, t', df, series.
  split; [reflexivity |]. repeat (split; [assumption |]).
  destruct (fit series) as [m |];
    [| cbn; split; [right; left; reflexivity |];
       intros h [H | [H | []]]; [discriminate | now inversion H]].
  destruct (make_future_dataframe m _) as [future |];
    [| cbn; split; [right; left; reflexivity |];
       intros h [H | [H | [H | []]]]; try discriminate; now inversion H].
  assert (Hmark : forall (lines : list (@Event F)) h,
             (forall ev, In ev lines -> exists line, ev = EvMarkdown line) ->
             ~ In (EvFit h) lines).
  { intros lines h Hl Hin. destruct (Hl _ Hin). discriminate. }
  destruct (predict m future) as [forecast |];
    [| cbn; split; [right; left; reflexivity |];
       intros h [H | [H | [H | [H | []]]]]; try discriminate; now inversion H].
  destruct (getitem df year_label) as [years |];
    [| cbn; split; [right; left; reflexivity |];
       intros h [H | [H | [H | [H | []]]]]; try discriminate; now inversion H].
  destruct (extract_insights_cases (column_max years) forecast)
    as [-> | (lines & -> & Hl)]; cbn [fst snd app].
  - split; [right; left; reflexivity |].
    intros h [H | [H | [H | [H | []]]]]; try discriminate; now inversion H.
  - split; [right; now left |].
    intros h [H | [H | [H | [H | H]]]]; try discriminate;
      [now inversion H |].
    rewrite app_nil_l in H. apply in_app_or in H. destruct H as [H | H].
    + exfalso. now apply (Hmark lines h Hl).
    + cbn in H. destruct H as [H | []]. discriminate.
Qed.

(** X12.  The download is offered exactly by the runs that raise nothing,
    as their last event, and the table it carries is the whole forecast the
    service returned for the requested horizon, the fitted past included,
    not the future part the insights were computed on.  A run that raises
    offers no download. *)
Theorem download_iff_completed (xls : @ExcelFile F)
    (picked : option (SliderPos 1 10)) :
  (forall table,
      In (EvDownload table) (fst (main xls picked)) ->
      snd (main xls picked) = Ok tt
      /\ exists series m future,
          In (EvFit series) (fst (main xls picked))
          /\ fit series = Ok m
          /\ make_future_dataframe m (slider 1 10 5 picked * 365) = Ok future
          /\ predict m future = Ok table)
  /\ (snd (main xls picked) = Ok tt ->
      exists log table, fst (main xls picked) = log ++ [EvDownload table]).
Proof.
  rewrite main_shape.
  destruct (load_sheets xls) as [t |]; [| split; [intros ? [] | discriminate]].
  destruct (clean_tables t) as [t' |]; [| split; [intros ? [] | discriminate]].
  destruct (reconcile t') as [df |]; [| split; [intros ? [] | discriminate]].
  rewrite report_shape.
  destruct (build_series df) as [series |];
    [| cbn; split; [intros ? [H | []]; discriminate | discriminate]].
  destruct (fit series) as [m |] eqn:Ef;
    [| cbn; split; [intros ? [H | [H | []]]; discriminate | discriminate]].
  destruct (make_future_dataframe m _) as [future |] eqn:Em;
    [| cbn; split;
       [intros ? [H | [H | [H | []]]]; discriminate | discriminate]].
  destruct (predict m future) as [forecast |] eqn:Ep;
    [| cbn; split;
       [intros ? [H | [H | [H | [H | []]]]]; discriminate | discriminate]].
  destruct (getitem df year_label) as [years |];
    [| cbn; split;
       [intros ? [H | [H | [H | [H | []]]]]; discriminate | discriminate]].
  destruct (extract_insights_cases (column_max years) forecast)
    as [-> | (lines & -> & Hl)]; cbn [fst snd app].
  - split; [intros ? [H | [H | [H | [H | []]]]]; discriminate | discriminate].
  - split.
    + intros table [H | [H | [H | [H | H]]]]; try discriminate.
      rewrite app_nil_l in H. apply in_app_or in H. destruct H as [H | H].
      * destruct (Hl _ H). discriminate.
      * cbn in H. destruct H as [H | []]. inversion H; subst.
        split; [reflexivity |].
        exists series, m, future. split; [right; now left | auto].
    + intros _.
      exists (EvDataframe df :: EvFit series
                :: EvMakeFuture (slider 1 10 5 picked * 365)
                :: EvPredict future :: lines), forecast.
      cbn. reflexivity.
Qed.




End Runs.

End Further.

(** * Concrete runs *)

Import Exact.

Ltac distinct_years :=
  repeat (constructor; [cbn; intuition lia |]); constructor.

(** C1: a year entered twice in the Subscribers table.  The reconciler
    raises nothing and returns both combinations for 2020. *)
Lemma duplicate_year_joined_twice :
  ~ NoDup (map fst Samples.subs_2020_twice)
  /\ reconcile
       (cleaned_tables [(2020, 24996%Q)] Samples.subs_2020_twice
                       [(2020, 11800%Q)] [(2020, 2761%Q)])
     = Ok (mkDataFrame reconciled_columns
             [[CInt 2020; CFloat 24996%Q; CFloat 204%Q; CFloat 11800%Q;
               CFloat 2761%Q];
              [CInt 2020; CFloat 24996%Q; CFloat 195%Q; CFloat 11800%Q;
               CFloat 2761%Q]]).
Proof.
  split; [| reflexivity].
  intros H. inversion H as [| ? ? Hnin _]; subst. apply Hnin. now left.
Qed.

(** C2 on the key sets 2019-2021, 2019-2020, 2020-2021 and 2019-2021. *)
Lemma reconcile_intersection_2020 :
  exists out,
    reconcile
      (cleaned_tables Samples.revenue_2019_2021 Samples.subs_2019_2020_rows
                      Samples.content_2020_2021 Samples.income_2019_2021)
    = Ok (mkDataFrame reconciled_columns (map wide_row out))
    /\ NoDup (map fst out)
    /\ (forall k, In k (map fst out)
                  <-> In k [2019; 2020; 2021] /\ In k [2019; 2020]
                      /\ In k [2020; 2021] /\ In k [2019; 2020; 2021]).
Proof.
  destruct (reconcile_intersection
              Samples.revenue_2019_2021 Samples.subs_2019_2020_rows
              Samples.content_2020_2021 Samples.income_2019_2021)
    as ((out & Hrun & _ & Hnd & Hin & _) & _);
    [cbn; distinct_years | cbn; distinct_years | cbn; distinct_years
     | cbn; distinct_years |].
  exists out. split; [exact Hrun |]. split; [exact Hnd | exact Hin].
Defined.

(** C3: the four tables list 2021 before 2020.  The output does so too, and
    it differs from the output for the same rows in ascending order. *)
Lemma reconcile_keeps_descending_order :
  Permutation Samples.rows_2021_2020 Samples.rows_2020_2021
  /\ rbind (reconcile
              (cleaned_tables Samples.rows_2021_2020 Samples.rows_2021_2020
                              Samples.rows_2021_2020 Samples.rows_2021_2020))
           (fun df => getitem df year_label)
     = Ok [CInt 2021; CInt 2020]
  /\ rbind (reconcile
              (cleaned_tables Samples.rows_2020_2021 Samples.rows_2020_2021
                              Samples.rows_2020_2021 Samples.rows_2020_2021))
           (fun df => getitem df year_label)
     = Ok [CInt 2020; CInt 2021].
Proof.
  split; [apply perm_swap |]. split; reflexivity.
Qed.

(** C3 (as amended) on a Revenue table in descending order. *)
Lemma reconcile_revenue_order_2021_2020 :
  map fst (joined Samples.rows_2021_2020 Samples.subs_2019_2020_rows
                  Samples.content_2020_2021 Samples.income_2019_2021)
  = [2020]
  /\ reconcile
       (cleaned_tables Samples.rows_2021_2020
                       (rev Samples.subs_2019_2020_rows)
                       (rev Samples.content_2020_2021)
                       (rev Samples.income_2019_2021))
     = reconcile
         (cleaned_tables Samples.rows_2021_2020 Samples.subs_2019_2020_rows
                         Samples.content_2020_2021 Samples.income_2019_2021).
Proof.
  destruct (reconcile_revenue_order
              Samples.rows_2021_2020 Samples.subs_2019_2020_rows
              Samples.content_2020_2021 Samples.income_2019_2021)
    as (_ & Hkeys & _ & Hperm);
    [cbn; distinct_years | cbn; distinct_years | cbn; distinct_years |].
  split.
  - rewrite Hkeys. reflexivity.
  - apply Hperm; apply Permutation_rev.
Defined.

(** C4 on a column of three cells, the last of them not a number. *)
Lemma clean_currency_rejects_letters :
  clean_currency [CStr "$1,234.50"; CInt 7; CStr "$12abc"]
  = Error (CouldNotConvert "12abc")
  /\ clean_currency [CStr "$1,234.50"; CInt 7]
     = Ok [CFloat (2469 # 2); CFloat 7%Q].
Proof.
  split; [reflexivity |].
  pose proof (clean_currency_strict [CStr "$1,234.50"; CInt 7])
    as (_ & _ & _ & _ & _ & Hvalues).
  apply (proj2 (Hvalues [CFloat (2469 # 2); CFloat 7%Q])).
  exists [2469 # 2; 7%Q]. split; [reflexivity |].
  repeat constructor.
Defined.

(** C5: a revenue sheet of three columns.  The workbook has the four
    sheets, and the load fails on the label assignment. *)
Lemma three_columns_rejected :
  (exists df, parse Samples.workbook_three_columns revenue_sheet = Ok df
              /\ List.length (columns df) = 3%nat)
  /\ load_sheets Samples.workbook_three_columns = Error (LengthMismatch 3 2).
Proof.
  split; [eexists; split; reflexivity | reflexivity].
Qed.

(** C5 (as amended) on a workbook of two-column sheets with headers of their
    own. *)
Lemma load_sheets_renames_2019_2020 :
  load_sheets Samples.workbook_2019_2020
  = Ok (mkTables
          (mkDataFrame ["Year"; "Revenue ($)"]
             [[CInt 2019; CStr "$20,156"]; [CInt 2020; CStr "$24,996"]])
          (mkDataFrame ["Year"; "Subscribers"]
             (rows Samples.subs_2019_2020))
          (mkDataFrame ["Year"; "Content Spend ($)"]
             (rows Samples.content_2019_2020))
          (mkDataFrame ["Year"; "Net Income ($)"]
             (rows Samples.income_2019_2020))).
Proof.
  refine (proj1 (load_sheets_two_columns Samples.workbook_2019_2020
                   _ _ _ _ eq_refl eq_refl eq_refl eq_refl) _).
  repeat split; reflexivity.
Defined.

(** C6: only 2020 is common to the four sheets.  The builder returns the
    series of one point, the fit of the service is called on it, and the
    error that ends the run is the one the service raised. *)
Lemma single_year_reaches_service :
  build_series Samples.reconciled_2020
  = Ok [(mkDate 2020 1, CFloat 24996%Q)]
  /\ exists df,
      main (svc := Persistence.service) Samples.workbook_one_common_year None
      = ([EvDataframe df; EvFit [(mkDate 2020 1, CFloat 24996%Q)]],
         Error (ServiceError "Dataframe has less than 2 non-NaN rows.")).
Proof.
  split; [reflexivity |]. eexists. vm_compute. reflexivity.
Qed.

(** C6 (as amended) on the frame of the single year 2020. *)
Lemma single_point_series_passed :
  exists log r,
    forecast_and_report (svc := Persistence.service)
      Samples.reconciled_2020 None
    = (EvFit [(mkDate 2020 1, CFloat 24996%Q)] :: log, r).
Proof.
  refine (proj1 (proj2 (series_passed_uncounted (svc := Persistence.service)
                          Samples.reconciled_2020 None _ _))).
  reflexivity.
Defined.


(** C8 on a forecast with one fitted point of 2020, two points of 2021 and
    one of 2022, the latest known year being 2020. *)
Lemma annual_pred_2021_2022 :
  annual_pred (Some 2020) Samples.forecast_2020_2022
  = [(2021, 26002%Q); (2022, 30000%Q)]
  /\ (forall y,
        (exists v, series_get y (annual_pred (Some 2020)
                                   Samples.forecast_2020_2022) = Some v)
        <-> 2020 < y
            /\ exists p, In p Samples.forecast_2020_2022 /\ year (ds p) = y).
Proof.
  split; [vm_compute; reflexivity |].
  exact (proj1 (annual_pred_future_years 2020 Samples.forecast_2020_2022)).
Defined.

(** C10 on a history that ends on January 1 of the leap year 2020, with the
    slider at one year. *)
Lemma insights_raise_after_2020 :
  exists series future,
    forecast_and_report (svc := Persistence.service)
      Samples.reconciled_2019_2020 (Some Samples.one_year)
    = ([EvFit series; EvMakeFuture 365; EvPredict future],
       Error (EmptyArg "argmax")).
Proof.
  eexists. eexists.
  refine (proj1 (proj2 (proj2
            (insights_raise_without_future_year
               (svc := Persistence.service)
               Samples.reconciled_2019_2020 (Some Samples.one_year)
               _ _ _ _ _ 2020 _ _ _ _ _ _ _)))).
  - vm_compute. reflexivity.
  - vm_compute. reflexivity.
  - vm_compute. reflexivity.
  - vm_compute. reflexivity.
  - vm_compute. reflexivity.
  - vm_compute. reflexivity.
  - intros p Hp. apply Z.leb_le. revert p Hp.
    apply (proj1 (forallb_forall (fun p => year (ds p) <=? 2020) _)).
    vm_compute. reflexivity.
Defined.

(** ** Concrete runs for the further properties *)

Lemma exact_ltb_lt (x y : Q) : fltb x y = true <-> (x < y)%Q.
Proof.
  cbn. rewrite negb_true_iff, <- not_true_iff_false, Qle_bool_iff.
  split; [apply Qnot_le_lt | apply Qlt_not_le].
Qed.

Lemma exact_ltb_trans (a b c : Q) :
  fltb a b = true -> fltb b c = true -> fltb a c = true.
Proof.
  rewrite !exact_ltb_lt. apply Qlt_trans.
Qed.

Lemma exact_ltb_cotrans (a b c : Q) :
  fltb a b = true -> fltb a c = true \/ fltb c b = true.
Proof.
  rewrite !exact_ltb_lt. intros H.
  destruct (Qlt_le_dec a c) as [Hac | Hca]; [now left | right].
  now apply (Qle_lt_trans c a b).
Qed.

(** X1 on a workbook without the subscribers sheet. *)
Lemma missing_subs_sheet_reported :
  exists missing,
    In missing [revenue_sheet; subs_sheet; content_sheet; income_sheet]
    /\ load_sheets Samples.workbook_without_subs
       = Error (WorksheetNotFound missing).
Proof.
  destruct (proj1 (load_sheets_missing_sheet Samples.workbook_without_subs)
              subs_sheet)
    as (missing & before & after & Hsplit & _ & _ & Herr).
  - right. now left.
  - intros df [H | [H | [H | []]]]; inversion H.
  - exists missing. split; [rewrite Hsplit; apply in_elt | exact Herr].
Defined.

(** X2 on the text of an amount. *)
Lemma strip_currency_twice_amount :
  strip_currency (strip_currency "$1,234,567.50") = "1234567.50".
Proof.
  rewrite (proj1 (proj2 (proj2 (strip_currency_residue "$1,234,567.50")))).
  reflexivity.
Defined.

(** X3 on a column of a string and a number. *)
Lemma clean_currency_again_unchanged :
  clean_currency [CFloat (2469 # 2); CFloat 7%Q]
  = Ok [CFloat (2469 # 2); CFloat 7%Q].
Proof.
  refine (proj2 (proj1 (clean_currency_idempotent (F := Q)
                          [CStr "$1,234.50"; CInt 7])
                  [CFloat (2469 # 2); CFloat 7%Q] _)).
  reflexivity.
Defined.

(** X4 on the revenue sheet of 2019 and 2020. *)
Lemma clean_column_keeps_years_2019_2020 :
  exists df',
    clean_column Samples.revenue_frame_raw revenue_label = Ok df'
    /\ columns df' = [year_label; revenue_label]
    /\ getitem df' year_label = Ok [CInt 2019; CInt 2020].
Proof.
  eexists. split; [vm_compute; reflexivity |].
  match goal with
  | |- columns ?d = _ /\ _ =>
      destruct (clean_column_only_named Samples.revenue_frame_raw d
                  revenue_label) as (Hcols & _ & Hother & _);
        [vm_compute; reflexivity |]
  end.
  split; [exact Hcols |].
  rewrite (Hother year_label) by discriminate. reflexivity.
Defined.

(** X5 on the workbook of 2019 and 2020. *)
Lemma cleaned_years_2019_2020 :
  exists t',
    rbind (load_sheets Samples.workbook_2019_2020) clean_tables = Ok t'
    /\ getitem (revenue_df t') year_label = Ok [CInt 2019; CInt 2020]
    /\ getitem (income_df t') year_label = Ok [CInt 2019; CInt 2020].
Proof.
  eexists. split; [vm_compute; reflexivity |].
  edestruct (cleaned_years_are_sheet_years Samples.workbook_2019_2020)
    as (r & s & c & i & Hr & _ & _ & Hi & Er & _ & _ & Ei);
    [vm_compute; reflexivity | vm_compute; reflexivity |].
  inversion Hr; subst. inversion Hi; subst.
  split; [exact Er | exact Ei].
Defined.

(** X6 on an empty Subscribers table. *)
Lemma reconcile_without_subscribers :
  reconcile
    (cleaned_tables Samples.revenue_2019_2021 []
                    Samples.content_2020_2021 Samples.income_2019_2021)
  = Ok (mkDataFrame reconciled_columns []).
Proof.
  apply reconcile_empty_table. right. now left.
Defined.

(** X7 on the tables of the key sets 2019-2021, 2019-2020, 2020-2021 and
    2019-2021. *)
Lemma reconcile_at_most_two_rows :
  exists out,
    reconcile
      (cleaned_tables Samples.revenue_2019_2021 Samples.subs_2019_2020_rows
                      Samples.content_2020_2021 Samples.income_2019_2021)
    = Ok (mkDataFrame reconciled_columns out)
    /\ (List.length out <= 2)%nat.
Proof.
  destruct (reconcile_row_bound
              Samples.revenue_2019_2021 Samples.subs_2019_2020_rows
              Samples.content_2020_2021 Samples.income_2019_2021)
    as (out & Hrun & _ & Hbound);
    [cbn; distinct_years | cbn; distinct_years | cbn; distinct_years |].
  exists out. split; [exact Hrun |].
  destruct Hbound as (H & _); [cbn; distinct_years | exact H].
Defined.

(** X8 on the same tables: the series is the revenue of 2020 alone. *)
Lemma series_of_common_year_2020 :
  rbind (reconcile
           (cleaned_tables Samples.revenue_2019_2021
                           Samples.subs_2019_2020_rows
                           Samples.content_2020_2021
                           Samples.income_2019_2021))
        build_series
  = Ok [(mkDate 2020 1, CFloat 24996%Q)].
Proof.
  rewrite (series_is_common_revenue
             Samples.revenue_2019_2021 Samples.subs_2019_2020_rows
             Samples.content_2020_2021 Samples.income_2019_2021).
  - reflexivity.
  - cbn; distinct_years.
  - cbn; distinct_years.
  - cbn; distinct_years.
  - cbn. intros y [<- | [<- | [<- | []]]]; lia.
Defined.

(** X9 on a column that is not in ascending order. *)
Lemma column_max_of_unsorted_years :
  column_max (map (@CInt Q) [2019; 2021; 2020]) = Some 2021
  /\ forall y, In y [2019; 2021; 2020] -> y <= 2021.
Proof.
  split; [reflexivity |].
  refine (proj2 (proj2 (column_max_greatest (F := Q) [2019; 2021; 2020])
                   2021 _)).
  reflexivity.
Defined.

(** X10 on the reconciled frame without rows. *)
Lemma empty_frame_run_fails :
  build_series (@mkDataFrame Q reconciled_columns []) = Ok []
  /\ exists log e,
      forecast_and_report (svc := Persistence.service)
        (mkDataFrame reconciled_columns []) None
      = (EvFit [] :: log, Error e).
Proof.
  destruct (empty_frame_never_completes (svc := Persistence.service)
              (mkDataFrame reconciled_columns []) None eq_refl)
    as (_ & _ & Hgiven).
  destruct Hgiven as (Hb & (log & e & Hrun & _) & _).
  - cbn. now left.
  - cbn. right. now left.
  - split; [exact Hb |]. exists log, e. exact Hrun.
Defined.

(** X11 on the workbook of 2019 and 2020 with the slider at one year. *)
Lemma service_history_2019_2020 :
  exists t t' df series,
    load_sheets Samples.workbook_2019_2020 = Ok t
    /\ clean_tables t = Ok t'
    /\ reconcile t' = Ok df
    /\ build_series df = Ok series.
Proof.
  destruct (service_called_after_build (svc := Persistence.service)
              Samples.workbook_2019_2020 (Some Samples.one_year)
              (EvMakeFuture 365))
    as (t & t' & df & series & H1 & H2 & H3 & H4 & _).
  - vm_compute. right. right. left. reflexivity.
  - exact I.
  - exists t, t', df, series. auto.
Defined.

(** X12 on the workbook of 2019 and 2020 with the slider untouched. *)
Lemma completed_run_offers_download :
  exists log table,
    fst (main (svc := Persistence.service) Samples.workbook_2019_2020 None)
    = log ++ [EvDownload table].
Proof.
  apply (proj2 (download_iff_completed (svc := Persistence.service)
                  Samples.workbook_2019_2020 None)).
  vm_compute. reflexivity.
Defined.

(** X13 on a series whose highest amount occurs in 2022 and in 2023. *)
Lemma highest_year_first_of_tie :
  idxmax Samples.annual_with_tie = Ok 2022
  /\ exists pre v post,
      Samples.annual_with_tie = pre ++ (2022, v) :: post
      /\ (forall p, In p pre -> fltb (snd p) v = true)
      /\ (forall p, In p post -> fltb v (snd p) = false).
Proof.
  split; [reflexivity |].
  refine (proj1 (extreme_years_first Samples.annual_with_tie
                   exact_ltb_trans exact_ltb_cotrans) 2022 _).
  reflexivity.
Defined.

(** X14 on the forecast of four points and its interleaved form. *)
Lemma annual_pred_interleaved :
  annual_pred (Some 2020) Samples.forecast_interleaved
  = annual_pred (Some 2020) Samples.forecast_2020_2022.
Proof.
  apply annual_pred_by_year. intros y _.
  unfold year_values, Samples.forecast_interleaved, Samples.forecast_2020_2022.
  cbn [filter year ds].
  destruct (Z.eqb_spec 2020 y), (Z.eqb_spec 2021 y), (Z.eqb_spec 2022 y);
    try lia; reflexivity.
Defined.

(** X15 on an amount of seven digits. *)
Lemma printed_amount_1234567 :
  dollars 1234567 = "$1,234,567"
  /\ clean_currency [CStr (dollars 1234567)] = Ok [CFloat 1234567%Q].
Proof.
  split; [reflexivity |].
  change (clean_currency [CStr (dollars 1234567)]
          = Ok [@CFloat Q (float_of_int 1234567)]).
  apply (proj2 (proj2 (printed_amount_cleans (F := Q) 1234567))).
  reflexivity.
Defined.

(** X16 on the revenue sheet of 2019 and 2020. *)
Lemma cleaned_revenue_sheet_2019_2020 :
  clean_column Samples.revenue_frame_raw revenue_label
  = Ok (metric_table revenue_label [(2019, 20156%Q); (2020, 24996%Q)]).
Proof.
  apply (proj2 (cleaned_sheet_is_metric_table revenue_label [2019; 2020]
                  [CStr "$20,156"; CStr "$24,996"]
                  ltac:(discriminate) eq_refl)
           [20156%Q; 24996%Q]).
  reflexivity.
Defined.

(** X17 on the merge of the Revenue and Subscribers tables. *)
Lemma merge_revenue_subscribers_shape :
  exists df,
    merge (metric_table revenue_label Samples.revenue_2019_2021)
          (metric_table subs_label Samples.subs_2019_2020_rows) year_label
    = Ok df
    /\ columns df = [year_label; revenue_label; subs_label]
    /\ rectangular df.
Proof.
  destruct (merge_shape
              (metric_table revenue_label Samples.revenue_2019_2021)
              (metric_table subs_label Samples.subs_2019_2020_rows)
              year_label)
    as (_ & Hjoin).
  - repeat (constructor; [cbn; intuition discriminate |]). constructor.
  - repeat (constructor; [cbn; intuition discriminate |]). constructor.
  - cbn. intros c [<- | [<- | []]] [E | [E | []]];
      try reflexivity; discriminate.
  - repeat constructor.
  - repeat constructor.
  - intros col E. vm_compute in E. injection E as <-.
    repeat constructor; cbn; lia.
  - intros col E. vm_compute in E. injection E as <-.
    repeat constructor; cbn; lia.
  - destruct Hjoin as (df & Hm & Hc & _ & Hrect & _).
    + cbn. now left.
    + cbn. now left.
    + exists df. split; [exact Hm |]. split; [exact Hc | exact Hrect].
Defined.
